(** * Vale Notícias front-end: bottom navigation, Places page, Profile page

    A shallow embedding of the three components of the repository
    ([BottomNav], [pages/Places.tsx], [pages/Profile.tsx]) together with a
    contract model of the collaborators they call (auth service, row store,
    query cache, form store), and the properties the specification states
    about them.

    Conventions.
    - A JavaScript value of type [T | null] is an [option T]; a property
      that may also be missing ([T | null | undefined]) is a [js T].
    - A JavaScript object whose keys may be absent (a [Partial<Profile>]
      payload, the values held by the form) is a [gmap string _]: an absent
      key is a lookup that yields [None].
    - An [async] function is a computation in the monad [Async], which
      threads the backend and either returns or throws. *)

From Stdlib Require Import Ascii String.
From stdpp Require Import base option strings list gmap sorting.

Open Scope string_scope.
Open Scope list_scope.
Open Scope stdpp_scope.

Set Warnings "-clear-no-such-hyp".

(** ** JavaScript values *)

Inductive js (A : Type) : Type :=
| undefined
| null
| val (a : A).
Arguments undefined {A}.
Arguments null {A}.
Arguments val {A} a.

#[export] Instance js_eq_dec `{EqDecision A} : EqDecision (js A).
Proof. solve_decision. Defined.

(** [T | null] read back as a value that may also be undefined. *)
Definition of_nullable {A} (o : option A) : js A :=
  match o with
  | Some a => val a
  | None => null
  end.

(** Truthiness of a string: the empty string is falsy. *)
Definition truthy_string (s : string) : bool :=
  negb (String.eqb s "").

(** Truthiness of [string | null]. *)
Definition truthy (v : option string) : bool :=
  match v with
  | Some s => truthy_string s
  | None => false
  end.

(** [cond && <element/>] inside JSX, for a string-valued [cond]: the element
    is rendered when [cond] is truthy, and nothing is rendered otherwise. *)
Definition when_truthy {E} (v : option string) (element : string → E) : list E :=
  match v with
  | Some s => if truthy_string s then [element s] else []
  | None => []
  end.

(** [a || b] on [string | undefined]. *)
Definition or_else (a : option string) (b : string) : string :=
  match a with
  | Some s => if truthy_string s then s else b
  | None => b
  end.

(** ** Auth service *)

Record User := { user_id : string }.

Record Session := { access_token : string; session_user : User }.

(** ** Bottom navigation bar *)

Module BottomNav.

(** The part of the site configuration the bar reads; every colour may be
    missing, and the configuration itself may not have loaded yet. *)
Record SiteConfig := {
  bottom_nav_primary_color : option string;
  bottom_nav_secondary_color : option string;
  bottom_nav_icon_color : option string;
  bottom_nav_text_color : option string;
}.

(** [config?.field]. *)
Definition opt_field (config : option SiteConfig)
    (field : SiteConfig → option string) : option string :=
  config ≫= field.

(** Component state: [useState<any>(null)] plus whether the component is
    still mounted (its auth subscription is live). *)
Record State := {
  session : option Session;
  mounted : bool;
}.

(** First render: no session, effect has subscribed. *)
Definition mount : State := {| session := None; mounted := true |}.

Definition setSession (s : option Session) (st : State) : State :=
  {| session := s; mounted := mounted st |}.

Inductive Event :=
| GetSessionResolved (s : option Session)
| AuthStateChange (event : string) (s : option Session)
| Unmount.

(** The [useEffect] body: both callbacks call [setSession]; the cleanup
    unsubscribes, after which no state update reaches the component. *)
Definition step (st : State) (ev : Event) : State :=
  if mounted st then
    match ev with
    | GetSessionResolved s => setSession s st
    | AuthStateChange _ s => setSession s st
    | Unmount => {| session := session st; mounted := false |}
    end
  else st.

Definition run (st : State) (evs : list Event) : State :=
  foldl step st evs.

Definition isActive (pathname path : string) : bool :=
  String.eqb pathname path.

Definition navStyle (config : option SiteConfig) : string :=
  "linear-gradient(to right, "
    +:+ or_else (opt_field config bottom_nav_primary_color) "#1A1F2C"
    +:+ ", "
    +:+ or_else (opt_field config bottom_nav_secondary_color) "#D6BCFA"
    +:+ ")".

Definition iconColor (config : option SiteConfig) : string :=
  or_else (opt_field config bottom_nav_icon_color) "#FFFFFF".

Definition textColor (config : option SiteConfig) : string :=
  or_else (opt_field config bottom_nav_text_color) "#FFFFFF".

Record NavLink := {
  link_to : string;
  link_label : string;
  link_color : string;
}.

(** [session ? "/perfil" : "/login"]; a session object is truthy, [null]
    is not. *)
Definition profile_link_to (s : option Session) : string :=
  match s with
  | Some _ => "/perfil"
  | None => "/login"
  end.

Record Nav := {
  nav_style : string;
  nav_links : list NavLink;
}.

Definition render (pathname : string) (config : option SiteConfig)
    (st : State) : Nav :=
  {| nav_style := navStyle config;
     nav_links :=
       [ {| link_to := "/";
            link_label := "Início";
            link_color := if isActive pathname "/"
                          then iconColor config else textColor config |};
         {| link_to := profile_link_to (session st);
            link_label := "Eu";
            link_color := if isActive pathname "/perfil" || isActive pathname "/login"
                          then iconColor config else textColor config |} ] |}.

(** The target of the link labelled [label], if the bar has one. *)
Definition target_of (label : string) (nav : Nav) : option string :=
  link_to <$> List.find (λ l, String.eqb (link_label l) label) (nav_links nav).

End BottomNav.

(** ** Row store

    The hosted row store is a collaborator of this code, not part of it.
    The model below is its contract as the pages rely on it: a request
    yields a response object with a [data] and an [error] property and never
    throws; [error] is set exactly when the request failed. *)

Record PostgrestError := { pg_code : string; pg_message : string }.

Record Response (T : Type) := {
  data : option T;
  error : option PostgrestError;
}.
Arguments data {T} r.
Arguments error {T} r.

Definition ok_with {T} (d : option T) : Response T :=
  {| data := d; error := None |}.

Definition failed_with {T} (e : PostgrestError) : Response T :=
  {| data := None; error := Some e |}.

Module Place.

(** Modelled from the spec: the type of the [social_media] column, which
    the generated database types (not among the sources) leave as untyped
    JSON; the data model gives it two optional links. *)
Record SocialMedia := {
  facebook : option string;
  instagram : option string;
}.

(** Modelled from the spec: the row type of the places table, generated
    into the database types of the backend integration, which are not among
    the sources.  The fields are those of the data model; every text column
    is nullable except [id] and [name]. *)
Record Row := {
  id : string;
  name : string;
  description : option string;
  address : option string;
  owner_name : option string;
  opening_hours : option string;
  entrance_fee : option string;
  phone : option string;
  whatsapp : option string;
  website : option string;
  social_media : option SocialMedia;
  maps_url : option string;
  image : option string;
}.

(** The text columns by name, as [.order(column)] addresses them. *)
Definition column (c : string) : option (Row → option string) :=
  if decide (c = "id") then Some (λ p, Some (id p))
  else if decide (c = "name") then Some (λ p, Some (name p))
  else if decide (c = "description") then Some description
  else if decide (c = "address") then Some address
  else if decide (c = "owner_name") then Some owner_name
  else if decide (c = "opening_hours") then Some opening_hours
  else if decide (c = "entrance_fee") then Some entrance_fee
  else if decide (c = "phone") then Some phone
  else if decide (c = "whatsapp") then Some whatsapp
  else if decide (c = "website") then Some website
  else if decide (c = "maps_url") then Some maps_url
  else if decide (c = "image") then Some image
  else None.

End Place.

(** A profile row is a JavaScript object with string keys; each column holds
    a string or [null].  The same shape serves for [Partial<Profile>], where
    any key may be absent, and for the values held by the form. *)
Abbreviation ProfileObj := (gmap string (option string)).

(** [obj?.key] on an object that may be [null] or [undefined]. *)
Definition get_opt (key : string) (obj : js ProfileObj) : js string :=
  match obj with
  | val o =>
      match o !! key with
      | Some (Some s) => val s
      | Some None => null
      | None => undefined
      end
  | _ => undefined
  end.

(** Truthiness of [string | null | undefined]. *)
Definition truthy_js (v : js string) : bool :=
  match v with
  | val s => truthy_string s
  | _ => false
  end.

(** The order in which the store compares text when it sorts. *)
Class Collation := {
  collate : relation string;
  collate_dec :: RelDecision collate;
  collate_total :: Total collate;
}.

(** Byte-wise comparison. *)
#[export] Instance byte_collation : Collation :=
  {| collate := String.le |}.

Inductive Verb := SELECT | UPDATE.

(** An update request as the store receives it:
    [.from(table).update(values).eq(col, v)]. *)
Record UpdateRequest := {
  req_table : string;
  req_values : ProfileObj;
  req_col : string;
  req_val : string;
}.

Record Backend := {
  auth_user : option User;
  profiles : list ProfileObj;
  places : list Place.Row;
  (** An outage of one kind of request on one table. *)
  fault : Verb → string → option PostgrestError;
  (** The update requests received so far, oldest first. *)
  received : list UpdateRequest;
}.

(** ** Asynchronous computations

    An [async] function runs against the backend and settles by returning
    or by throwing; an exception skips the rest of the body. *)

Inductive Exn :=
| JsError (message : string)
| Postgrest (e : PostgrestError).

Inductive Result (A : Type) : Type :=
| Returned (a : A)
| Thrown (e : Exn).
Arguments Returned {A} a.
Arguments Thrown {A} e.

Definition Async (A : Type) : Type := Backend → Result A * Backend.

Definition resolve {A} (a : A) : Async A := λ b, (Returned a, b).

Definition throw {A} (e : Exn) : Async A := λ b, (Thrown e, b).

Definition await {A B} (m : Async A) (k : A → Async B) : Async B :=
  λ b, match m b with
       | (Returned a, b') => k a b'
       | (Thrown e, b') => (Thrown e, b')
       end.

#[export] Instance Async_ret : MRet Async := @resolve.
#[export] Instance Async_bind : MBind Async := λ A B k m, await m k.

Definition settle {A} (r : Result A) : Async A := λ b, (r, b).

(** [supabase.auth.getUser()], destructured down to the user. *)
Definition getUser : Async (option User) :=
  λ b, (Returned (auth_user b), b).

(** Errors the store itself reports. *)
Definition not_single_row : PostgrestError :=
  {| pg_code := "PGRST116";
     pg_message := "JSON object requested, multiple (or no) rows returned" |}.

Definition undefined_column : PostgrestError :=
  {| pg_code := "42703"; pg_message := "column does not exist" |}.

Definition not_null_violation : PostgrestError :=
  {| pg_code := "23502"; pg_message := "null value in column violates not-null constraint" |}.

(** Ascending order on a nullable text column, nulls last. *)
Definition asc `{Collation} (key : Place.Row → option string) : relation Place.Row :=
  λ p q,
    match key p, key q with
    | Some a, Some b => collate a b
    | _, None => True
    | None, Some _ => False
    end.

#[export] Instance asc_dec `{Collation} key : RelDecision (asc key).
Proof.
  intros p q. unfold asc.
  destruct (key p) as [a|], (key q) as [b|]; apply _.
Defined.

(** The response to [.from("places").select("*").order(col)]: all rows,
    sorted on the column. *)
Definition places_response `{Collation} (col : string) (b : Backend)
    : Response (list Place.Row) :=
  match fault b SELECT "places" with
  | Some e => failed_with e
  | None =>
      match Place.column col with
      | Some key => ok_with (Some (merge_sort (asc key) (places b)))
      | None => failed_with undefined_column
      end
  end.

Definition places_select_order `{Collation} (col : string)
    : Async (Response (list Place.Row)) :=
  λ b, (Returned (places_response col b), b).

(** [.eq(col, v)] on a profile row. *)
Definition eq_filter (col v : string) (r : ProfileObj) : Prop :=
  r !! col = Some (Some v).

#[export] Instance eq_filter_dec col v r : Decision (eq_filter col v r).
Proof. unfold eq_filter. apply _. Defined.

(** The response to [.from("profiles").select("*").eq(col, v).single()]:
    the row when exactly one matches, an error otherwise. *)
Definition profiles_single_response (col v : string) (b : Backend)
    : Response ProfileObj :=
  match fault b SELECT "profiles" with
  | Some e => failed_with e
  | None =>
      match filter (eq_filter col v) (profiles b) with
      | [r] => ok_with (Some r)
      | _ => failed_with not_single_row
      end
  end.

Definition profiles_select_eq_single (col v : string)
    : Async (Response ProfileObj) :=
  λ b, (Returned (profiles_single_response col v b), b).

(** What an update does to one row: the keys of [values] overwrite the
    row's, the other columns stay. *)
Definition patch (values r : ProfileObj) : ProfileObj := values ∪ r.

Definition receive (req : UpdateRequest) (b : Backend) : Backend :=
  {| auth_user := auth_user b;
     profiles := profiles b;
     places := places b;
     fault := fault b;
     received := received b ++ [req] |}.

Definition with_profiles (rows : list ProfileObj) (b : Backend) : Backend :=
  {| auth_user := auth_user b;
     profiles := rows;
     places := places b;
     fault := fault b;
     received := received b |}.

(** The rows of the table after an update of those that match. *)
Definition update_rows (values : ProfileObj) (col v : string)
    (rows : list ProfileObj) : list ProfileObj :=
  (λ r, if decide (eq_filter col v r) then patch values r else r) <$> rows.

(** Why the store would refuse an update: an outage, or an attempt to set
    the primary key of some row to [null]. *)
Definition update_refusal (values : ProfileObj) (col v : string) (b : Backend)
    : option PostgrestError :=
  match fault b UPDATE "profiles" with
  | Some e => Some e
  | None =>
      if decide (values !! "id" = Some None ∧ Exists (eq_filter col v) (profiles b))
      then Some not_null_violation
      else None
  end.

(** [.from("profiles").update(values).eq(col, v)]: the request is received,
    and unless it is refused every matching row is patched. *)
Definition profiles_update_eq (values : ProfileObj) (col v : string)
    : Async (Response ()) :=
  λ b,
    let b' := receive {| req_table := "profiles"; req_values := values;
                         req_col := col; req_val := v |} b in
    match update_refusal values col v b with
    | Some e => (Returned (failed_with e), b')
    | None =>
        (Returned (ok_with None),
         with_profiles (update_rows values col v (profiles b)) b')
    end.

(** ** Query cache

    The cache layer runs a query function and keeps its outcome: a returned
    value becomes the query's data, a thrown exception is caught and kept as
    the query's error.  Retries are not modelled: the query functions here
    only read, so a retry against the same backend settles the same way. *)

Inductive QueryStatus := pending | success | error_status.

Record Query (T : Type) := {
  query_status : QueryStatus;
  query_data : js T;
  query_error : option Exn;
  isFetching : bool;
}.
Arguments query_status {T} q.
Arguments query_data {T} q.
Arguments query_error {T} q.
Arguments isFetching {T} q.

(** A query that has just been mounted: no data, first fetch in flight. *)
Definition mounted_query {T} : Query T :=
  {| query_status := pending; query_data := undefined;
     query_error := None; isFetching := true |}.

Definition settled {T} (q : Query T) (r : Result (option T)) : Query T :=
  match r with
  | Returned d =>
      {| query_status := success; query_data := of_nullable d;
         query_error := None; isFetching := false |}
  | Thrown e =>
      {| query_status := error_status; query_data := query_data q;
         query_error := Some e; isFetching := false |}
  end.

(** [invalidateQueries]: the data is kept and a refetch is started. *)
Definition invalidated {T} (q : Query T) : Query T :=
  {| query_status := query_status q; query_data := query_data q;
     query_error := query_error q; isFetching := true |}.

(** The fetch in flight settles against the backend. *)
Definition fetch {T} (queryFn : Async (option T)) (q : Query T) (b : Backend)
    : Query T * Backend :=
  let (r, b') := queryFn b in (settled q r, b').

Definition isLoading {T} (q : Query T) : bool :=
  match query_status q with
  | pending => true
  | _ => false
  end.

(** ** Places page *)

Module PlacesPage.

Inductive Icon :=
| Phone | Globe | MapPin | Clock | Ticket | User2
| Facebook | Instagram | MessageCircle.

Record Anchor := { icon : Icon; href : string }.

Record Image := { src : string; alt : string }.

(** One card of the grid; each list holds the children that were
    rendered, in document order. *)
Record Card := {
  key : string;
  picture : list Image;
  title : string;
  blurb : list string;
  details : list (Icon * string);
  contacts : list Anchor;
}.

Inductive View :=
| Spinner
| Grid (cards : list Card).

(** The query function of [useQuery({ queryKey: ["places"], ... })], after
    the response has arrived. *)
Definition queryFn_k (resp : Response (list Place.Row))
    : Result (option (list Place.Row)) :=
  match error resp with
  | Some e => Thrown (Postgrest e)
  | None => Returned (data resp)
  end.

Definition queryFn `{Collation} : Async (option (list Place.Row)) :=
  resp ← places_select_order "name";
  settle (queryFn_k resp).

Definition is_digit (c : ascii) : bool :=
  let n := nat_of_ascii c in Nat.leb 48 n && Nat.leb n 57.

(** [s.replace(/\D/g, '')] *)
Fixpoint strip_non_digits (s : string) : string :=
  match s with
  | EmptyString => EmptyString
  | String c rest =>
      if is_digit c then String c (strip_non_digits rest)
      else strip_non_digits rest
  end.

Definition social_links (sm : option Place.SocialMedia) : list Anchor :=
  match sm with
  | Some o =>
      when_truthy (Place.facebook o) (λ url, {| icon := Facebook; href := url |})
      ++ when_truthy (Place.instagram o) (λ url, {| icon := Instagram; href := url |})
  | None => []
  end.

Definition card (place : Place.Row) : Card :=
  {| key := Place.id place;
     picture :=
       when_truthy (Place.image place)
         (λ url, {| src := url; alt := Place.name place |});
     title := Place.name place;
     blurb := when_truthy (Place.description place) (λ d, d);
     details :=
       when_truthy (Place.address place) (λ a, (MapPin, a))
       ++ when_truthy (Place.owner_name place) (λ o, (User2, o))
       ++ when_truthy (Place.opening_hours place) (λ h, (Clock, h))
       ++ when_truthy (Place.entrance_fee place) (λ f, (Ticket, f));
     contacts :=
       when_truthy (Place.phone place)
         (λ n, {| icon := Phone; href := "tel:" +:+ n |})
       ++ when_truthy (Place.whatsapp place)
            (λ n, {| icon := MessageCircle;
                     href := "https://wa.me/" +:+ strip_non_digits n |})
       ++ when_truthy (Place.website place)
            (λ url, {| icon := Globe; href := url |})
       ++ social_links (Place.social_media place)
       ++ when_truthy (Place.maps_url place)
            (λ url, {| icon := MapPin; href := url |}) |}.

(** [places?.map(...)] *)
Definition cards (places : js (list Place.Row)) : list Card :=
  match places with
  | val ps => card <$> ps
  | _ => []
  end.

Definition render (q : Query (list Place.Row)) : View :=
  if isLoading q then Spinner else Grid (cards (query_data q)).

(** What the page shows once the first fetch has settled. *)
Definition page_after_fetch `{Collation} (b : Backend) : View :=
  render (fetch queryFn mounted_query b).1.

End PlacesPage.

(** ** Profile page *)

Module ProfilePage.

Definition defaultAvatarImage : string := "/placeholder.svg".
Definition defaultCoverImage : string := "/placeholder.svg".

(** The exception both functions throw when no user is signed in; the
    specification calls it NotAuthenticated. *)
Definition NotAuthenticated : Exn := JsError "No user found".

(** The query function of [useQuery({ queryKey: ["profile"], ... })],
    after the response has arrived: only [data] is read. *)
Definition queryFn_k (resp : Response ProfileObj) : Result (option ProfileObj) :=
  Returned (data resp).

Definition queryFn : Async (option ProfileObj) :=
  user ← getUser;
  match user with
  | None => throw NotAuthenticated
  | Some u =>
      resp ← profiles_select_eq_single "id" (user_id u);
      settle (queryFn_k resp)
  end.

Definition mutationFn_k (resp : Response ()) : Result bool :=
  match error resp with
  | Some e => Thrown (Postgrest e)
  | None => Returned true
  end.

Definition mutationFn (values : ProfileObj) : Async bool :=
  user ← getUser;
  match user with
  | None => throw NotAuthenticated
  | Some u =>
      resp ← profiles_update_eq values "id" (user_id u);
      settle (mutationFn_k resp)
  end.

(** The request [mutationFn] sends for a signed-in user. *)
Definition update_request (values : ProfileObj) (u : User) : UpdateRequest :=
  {| req_table := "profiles"; req_values := values;
     req_col := "id"; req_val := user_id u |}.

Record Toast := { toast_title : string; toast_description : string }.

Definition toast_updated : Toast :=
  {| toast_title := "Perfil atualizado";
     toast_description := "Suas alterações foram salvas com sucesso" |}.

Definition toast_avatar_removed : Toast :=
  {| toast_title := "Foto de perfil removida";
     toast_description := "Sua foto de perfil foi removida com sucesso" |}.

Definition toast_cover_removed : Toast :=
  {| toast_title := "Foto de capa removida";
     toast_description := "Sua foto de capa foi removida com sucesso" |}.

(** Component state.  [form] holds the values of the form store,
    [in_flight] the arguments of the [mutate] calls that have not settled
    yet (oldest first), [mutation_error] the failure state of the
    mutation, [toasts] the notifications emitted so far. *)
Record State := {
  isPreviewMode : bool;
  isPhotoDialogOpen : bool;
  isDeleteDialogOpen : bool;
  form : ProfileObj;
  profile_query : Query ProfileObj;
  in_flight : list ProfileObj;
  mutation_error : option Exn;
  toasts : list Toast;
}.

Definition mount : State :=
  {| isPreviewMode := true;
     isPhotoDialogOpen := false;
     isDeleteDialogOpen := false;
     form := ∅;
     profile_query := mounted_query;
     in_flight := [];
     mutation_error := None;
     toasts := [] |}.

Definition setIsPreviewMode (v : bool) (st : State) : State :=
  {| isPreviewMode := v;
     isPhotoDialogOpen := isPhotoDialogOpen st;
     isDeleteDialogOpen := isDeleteDialogOpen st;
     form := form st;
     profile_query := profile_query st;
     in_flight := in_flight st;
     mutation_error := mutation_error st;
     toasts := toasts st |}.

Definition setIsPhotoDialogOpen (v : bool) (st : State) : State :=
  {| isPreviewMode := isPreviewMode st;
     isPhotoDialogOpen := v;
     isDeleteDialogOpen := isDeleteDialogOpen st;
     form := form st;
     profile_query := profile_query st;
     in_flight := in_flight st;
     mutation_error := mutation_error st;
     toasts := toasts st |}.

Definition setIsDeleteDialogOpen (v : bool) (st : State) : State :=
  {| isPreviewMode := isPreviewMode st;
     isPhotoDialogOpen := isPhotoDialogOpen st;
     isDeleteDialogOpen := v;
     form := form st;
     profile_query := profile_query st;
     in_flight := in_flight st;
     mutation_error := mutation_error st;
     toasts := toasts st |}.

Definition set_form (f : ProfileObj) (st : State) : State :=
  {| isPreviewMode := isPreviewMode st;
     isPhotoDialogOpen := isPhotoDialogOpen st;
     isDeleteDialogOpen := isDeleteDialogOpen st;
     form := f;
     profile_query := profile_query st;
     in_flight := in_flight st;
     mutation_error := mutation_error st;
     toasts := toasts st |}.

Definition set_profile_query (q : Query ProfileObj) (st : State) : State :=
  {| isPreviewMode := isPreviewMode st;
     isPhotoDialogOpen := isPhotoDialogOpen st;
     isDeleteDialogOpen := isDeleteDialogOpen st;
     form := form st;
     profile_query := q;
     in_flight := in_flight st;
     mutation_error := mutation_error st;
     toasts := toasts st |}.

Definition set_in_flight (l : list ProfileObj) (st : State) : State :=
  {| isPreviewMode := isPreviewMode st;
     isPhotoDialogOpen := isPhotoDialogOpen st;
     isDeleteDialogOpen := isDeleteDialogOpen st;
     form := form st;
     profile_query := profile_query st;
     in_flight := l;
     mutation_error := mutation_error st;
     toasts := toasts st |}.

Definition set_mutation_error (e : option Exn) (st : State) : State :=
  {| isPreviewMode := isPreviewMode st;
     isPhotoDialogOpen := isPhotoDialogOpen st;
     isDeleteDialogOpen := isDeleteDialogOpen st;
     form := form st;
     profile_query := profile_query st;
     in_flight := in_flight st;
     mutation_error := e;
     toasts := toasts st |}.

Definition toast (t : Toast) (st : State) : State :=
  {| isPreviewMode := isPreviewMode st;
     isPhotoDialogOpen := isPhotoDialogOpen st;
     isDeleteDialogOpen := isDeleteDialogOpen st;
     form := form st;
     profile_query := profile_query st;
     in_flight := in_flight st;
     mutation_error := mutation_error st;
     toasts := toasts st ++ [t] |}.

(** *** Form store

    The form library keeps one value per field name: [reset] replaces
    them all, [setValue] writes one, [getValues] reads them back. *)

Definition form_reset (values : ProfileObj) (st : State) : State :=
  set_form values st.

Definition form_setValue (field : string) (v : option string) (st : State) : State :=
  set_form (<[field := v]> (form st)) st.

(** [form.getValues()] *)
Definition form_getValues (st : State) : ProfileObj := form st.

(** [form.getValues(field)] *)
Definition form_getValue (field : string) (st : State) : js string :=
  get_opt field (val (form st)).

(** An object literal as it travels in a request body: a property whose
    value is [undefined] is not serialised. *)
Fixpoint object (properties : list (string * js string)) : ProfileObj :=
  match properties with
  | [] => ∅
  | (k, undefined) :: rest => object rest
  | (k, null) :: rest => <[k := None]> (object rest)
  | (k, val s) :: rest => <[k := Some s]> (object rest)
  end.

(** *** Mutation *)

(** [updateProfile.mutate(values)]: the mutation starts and settles
    later. *)
Definition mutate (values : ProfileObj) (st : State) : State :=
  set_mutation_error None (set_in_flight (in_flight st ++ [values]) st).

Definition onSuccess (st : State) : State :=
  setIsPhotoDialogOpen false
    (toast toast_updated
       (set_profile_query (invalidated (profile_query st)) st)).

(** A started mutation settles: [mutationFn] runs, and [onSuccess] only
    when it returned. *)
Definition mutation_settles (values : ProfileObj) (st : State) (b : Backend)
    : State * Backend :=
  match mutationFn values b with
  | (Returned _, b') => (onSuccess st, b')
  | (Thrown e, b') => (set_mutation_error (Some e) st, b')
  end.

Definition handleDeleteAvatar (st : State) : State :=
  toast toast_avatar_removed
    (setIsDeleteDialogOpen false
       (mutate (object [("avatar_url", null)])
          (form_setValue "avatar_url" None st))).

Definition handleDeleteCover (st : State) : State :=
  toast toast_cover_removed
    (setIsDeleteDialogOpen false
       (mutate (object [("cover_url", null)])
          (form_setValue "cover_url" None st))).

(** [onSubmit] of the edit form. *)
Definition handleSubmit (st : State) : State :=
  mutate (form_getValues st) st.

(** [onClick] of the photo dialog's save button. *)
Definition handleSavePhotos (st : State) : State :=
  mutate (object [("avatar_url", form_getValue "avatar_url" st);
                  ("cover_url", form_getValue "cover_url" st)]) st.

(** [useEffect(() => { if (profile) form.reset(profile) }, [profile, form])]:
    runs when the query's data has changed. *)
Definition profile_effect (previous : js ProfileObj) (st : State) : State :=
  match query_data (profile_query st) with
  | val profile =>
      if decide (previous = val profile) then st else form_reset profile st
  | _ => st
  end.

Definition profile_fetch_settles (st : State) (b : Backend) : State * Backend :=
  let (q, b') := fetch queryFn (profile_query st) b in
  (profile_effect (query_data (profile_query st)) (set_profile_query q st), b').

(** *** Events *)

Inductive Event :=
| ProfileFetchSettles
| MutationSettles
| ClickEditarFoto
| ClickEditarPerfil
| ClickTrash
| ClickCamera
| TypeUsername (text : string)
| TypeFullName (text : string)
| TypeAvatarLink (text : string)
| TypeCoverLink (text : string)
| SubmitForm
| ClickSalvarAlteracoes
| ClickExcluirFotoDePerfil
| ClickExcluirFotoDeCapa
| PhotoDialogOpenChange (open : bool)
| DeleteDialogOpenChange (open : bool).

(** An event can only come from a control that is on the screen, and a
    settlement only from something in flight. *)
Definition enabled (st : State) (ev : Event) : bool :=
  match ev with
  | ProfileFetchSettles => isFetching (profile_query st)
  | MutationSettles => match in_flight st with [] => false | _ => true end
  | ClickEditarFoto | ClickEditarPerfil => true
  | ClickTrash | ClickCamera => negb (isPreviewMode st)
  | TypeUsername _ | TypeFullName _ | SubmitForm => negb (isPreviewMode st)
  | TypeAvatarLink _ | TypeCoverLink _ | ClickSalvarAlteracoes
  | PhotoDialogOpenChange _ => isPhotoDialogOpen st
  | ClickExcluirFotoDePerfil | ClickExcluirFotoDeCapa
  | DeleteDialogOpenChange _ => isDeleteDialogOpen st
  end.

Definition handle (ev : Event) (st : State) (b : Backend) : State * Backend :=
  match ev with
  | ProfileFetchSettles => profile_fetch_settles st b
  | MutationSettles =>
      match in_flight st with
      | [] => (st, b)
      | values :: rest => mutation_settles values (set_in_flight rest st) b
      end
  | ClickEditarFoto | ClickCamera => (setIsPhotoDialogOpen true st, b)
  | ClickEditarPerfil => (setIsPreviewMode false st, b)
  | ClickTrash => (setIsDeleteDialogOpen true st, b)
  | TypeUsername text => (form_setValue "username" (Some text) st, b)
  | TypeFullName text => (form_setValue "full_name" (Some text) st, b)
  | TypeAvatarLink text => (form_setValue "avatar_url" (Some text) st, b)
  | TypeCoverLink text => (form_setValue "cover_url" (Some text) st, b)
  | SubmitForm => (handleSubmit st, b)
  | ClickSalvarAlteracoes => (handleSavePhotos st, b)
  | ClickExcluirFotoDePerfil => (handleDeleteAvatar st, b)
  | ClickExcluirFotoDeCapa => (handleDeleteCover st, b)
  | PhotoDialogOpenChange open => (setIsPhotoDialogOpen open st, b)
  | DeleteDialogOpenChange open => (setIsDeleteDialogOpen open st, b)
  end.

Definition step (w : State * Backend) (ev : Event) : State * Backend :=
  if enabled w.1 ev then handle ev w.1 w.2 else w.

Definition run (w : State * Backend) (evs : list Event) : State * Backend :=
  foldl step w evs.

(** *** Render *)

Inductive Picture :=
| Img (src alt onErrorSrc : string)
| Placeholder (text : string).

(** [url ? <img src={url} onError={...}/> : <div><p>{text}</p></div>] *)
Definition picture (url : js string) (alt fallback text : string) : Picture :=
  match url with
  | val s => if truthy_string s then Img s alt fallback else Placeholder text
  | _ => Placeholder text
  end.

(** What an image element ends up displaying: its [src], or the
    [onError] substitute when [src] does not load. *)
Definition displayed (loads : string → bool) (p : Picture) : option string :=
  match p with
  | Img src _ fallback => Some (if loads src then src else fallback)
  | Placeholder _ => None
  end.

(** [v || ''] *)
Definition or_empty (v : js string) : string :=
  match v with
  | val s => s
  | _ => ""
  end.

Record View := {
  cover : Picture;
  avatar : Picture;
  photo_controls : bool;
  edit_form : bool;
  (** the default values of the two inputs, when the dialog is open *)
  photo_dialog : option (string * string);
  delete_dialog : bool;
}.

Definition render (st : State) : View :=
  let profile := query_data (profile_query st) in
  {| cover := picture (get_opt "cover_url" profile)
                "Capa" defaultCoverImage "Sem Capa de Perfil";
     avatar := picture (get_opt "avatar_url" profile)
                 "Avatar" defaultAvatarImage "Sem foto de perfil";
     photo_controls := negb (isPreviewMode st);
     edit_form := negb (isPreviewMode st);
     photo_dialog :=
       if isPhotoDialogOpen st
       then Some (or_empty (get_opt "avatar_url" profile),
                  or_empty (get_opt "cover_url" profile))
       else None;
     delete_dialog := isDeleteDialogOpen st |}.

End ProfilePage.

(** ** Vocabulary of the stated properties *)

(** A nullable text field is non-empty when it holds a string other than
    the empty one. *)
Definition nonempty (v : option string) : Prop :=
  ∃ s, v = Some s ∧ s ≠ "".

(** The contact affordances of a place card. *)
Inductive Affordance :=
| phone_link | whatsapp_link | website_link
| facebook_link | instagram_link | maps_link.

Definition affordance_icon (a : Affordance) : PlacesPage.Icon :=
  match a with
  | phone_link => PlacesPage.Phone
  | whatsapp_link => PlacesPage.MessageCircle
  | website_link => PlacesPage.Globe
  | facebook_link => PlacesPage.Facebook
  | instagram_link => PlacesPage.Instagram
  | maps_link => PlacesPage.MapPin
  end.

(** The field of the record an affordance stands for; the two social links
    live inside the optional [social_media] object. *)
Definition affordance_field (a : Affordance) (p : Place.Row) : option string :=
  match a with
  | phone_link => Place.phone p
  | whatsapp_link => Place.whatsapp p
  | website_link => Place.website p
  | facebook_link => Place.social_media p ≫= Place.facebook
  | instagram_link => Place.social_media p ≫= Place.instagram
  | maps_link => Place.maps_url p
  end.

(** The card shows an affordance when its contact row has the anchor with
    that affordance's icon. *)
Definition shows (a : Affordance) (c : PlacesPage.Card) : Prop :=
  Exists (λ x, PlacesPage.icon x = affordance_icon a) (PlacesPage.contacts c).

(** The picture is an image element that displays the placeholder image
    (for some outcome of loading its source). *)
Definition shows_placeholder_image (p : ProfilePage.Picture) : Prop :=
  ∃ loads, ProfilePage.displayed loads p = Some ProfilePage.defaultAvatarImage.

(** The fields of the profile an event of the user changes. *)
Definition touched (ev : ProfilePage.Event) : gset string :=
  match ev with
  | ProfilePage.TypeUsername _ => {["username"]}
  | ProfilePage.TypeFullName _ => {["full_name"]}
  | ProfilePage.TypeAvatarLink _ => {["avatar_url"]}
  | ProfilePage.TypeCoverLink _ => {["cover_url"]}
  | ProfilePage.ClickExcluirFotoDePerfil => {["avatar_url"]}
  | ProfilePage.ClickExcluirFotoDeCapa => {["cover_url"]}
  | _ => ∅
  end.

Definition changed_by_user (evs : list ProfilePage.Event) : gset string :=
  ⋃ (touched <$> evs).

(** The update requests the row store receives in the course of a run. *)
Definition sent_during (w : ProfilePage.State * Backend)
    (evs : list ProfilePage.Event) : list UpdateRequest :=
  drop (length (received w.2)) (received (ProfilePage.run w evs).2).

(** "Only changed fields are sent": no payload sent during the run has a
    key for a field the user did not change during the run. *)
Definition only_changed_fields_sent (w : ProfilePage.State * Backend)
    (evs : list ProfilePage.Event) : Prop :=
  ∀ req, req ∈ sent_during w evs →
    ∀ k, k ∉ changed_by_user evs → req_values req !! k = None.

(** ** Sample data *)

Module Sample.

Definition online : Verb → string → option PostgrestError := λ _ _, None.

Definition outage : PostgrestError :=
  {| pg_code := "503"; pg_message := "Service Unavailable" |}.

Definition offline : Verb → string → option PostgrestError := λ _ _, Some outage.

Definition ana : User := {| user_id := "u1" |}.

Definition ana_row : ProfileObj :=
  {[ "id" := Some "u1";
     "username" := Some "ana";
     "full_name" := Some "Ana Lima";
     "avatar_url" := Some "https://img.example/ana.png";
     "cover_url" := None ]}.

Definition rui_row : ProfileObj :=
  {[ "id" := Some "u2";
     "username" := Some "rui";
     "full_name" := None;
     "avatar_url" := None;
     "cover_url" := None ]}.

Definition place (id name : string) : Place.Row :=
  {| Place.id := id; Place.name := name;
     Place.description := None; Place.address := None;
     Place.owner_name := None; Place.opening_hours := None;
     Place.entrance_fee := None; Place.phone := None;
     Place.whatsapp := None; Place.website := None;
     Place.social_media := None; Place.maps_url := None;
     Place.image := None |}.

Definition cafe : Place.Row :=
  {| Place.id := "p3"; Place.name := "Cafe Central";
     Place.description := Some "Cafe e bolos";
     Place.address := Some "Rua 1";
     Place.owner_name := None; Place.opening_hours := None;
     Place.entrance_fee := None;
     Place.phone := Some "+55 (87) 9999-0000";
     Place.whatsapp := Some "+55 (87) 9999-0000";
     Place.website := Some "";
     Place.social_media :=
       Some {| Place.facebook := Some "https://fb.example/cafe";
               Place.instagram := None |};
     Place.maps_url := None;
     Place.image := None |}.

Definition backend (user : option User)
    (fault : Verb → string → option PostgrestError) : Backend :=
  {| auth_user := user;
     profiles := [rui_row; ana_row];
     places := [place "p1" "Mercado"; cafe; place "p2" "Balneario"];
     fault := fault;
     received := [] |}.

Definition session : Session :=
  {| access_token := "t0"; session_user := ana |}.

(** The profile page of the signed-in user, the delete dialog just
    opened. *)
Definition dialog_open : ProfilePage.State * Backend :=
  ProfilePage.run (ProfilePage.mount, backend (Some ana) online)
    [ProfilePage.ProfileFetchSettles; ProfilePage.ClickEditarPerfil;
     ProfilePage.ClickTrash].

End Sample.

(** ** Further vocabulary *)

(** The session an event of the bottom bar hands to [setSession]. *)
Definition delivered (ev : BottomNav.Event) : option (option Session) :=
  match ev with
  | BottomNav.GetSessionResolved s => Some s
  | BottomNav.AuthStateChange _ s => Some s
  | BottomNav.Unmount => None
  end.

(** Every character of the string is a decimal digit. *)
Fixpoint all_digits (s : string) : bool :=
  match s with
  | EmptyString => true
  | String c rest => PlacesPage.is_digit c && all_digits rest
  end.


(** The order in which the contact row lays out its anchors. *)
Definition contact_order : list PlacesPage.Icon :=
  [PlacesPage.Phone; PlacesPage.MessageCircle; PlacesPage.Globe;
   PlacesPage.Facebook; PlacesPage.Instagram; PlacesPage.MapPin].

(** An object that does not touch the id of the row of user [uid]: it has
    no id key, or repeats that id. *)
Definition keeps_id (uid : string) (values : ProfileObj) : Prop :=
  values !! "id" = None ∨ values !! "id" = Some (Some uid).

(** The id column of a table, row by row. *)
Definition ids (rows : list ProfileObj) : list (option (option string)) :=
  (λ r, r !! "id") <$> rows.

(** The component holds nothing that would rewrite the id of the row of
    user [uid]: not in the form, not in a mutation in flight, and the
    profile on screen is that user's. *)
Definition id_safe (uid : string) (st : ProfilePage.State) : Prop :=
  keeps_id uid (ProfilePage.form st)
  ∧ Forall (keeps_id uid) (ProfilePage.in_flight st)
  ∧ ∀ p, query_data (ProfilePage.profile_query st) = val p →
         p !! "id" = Some (Some uid).

(** ** Theme-dependent classes of the Profile page *)

Module ProfileTheme.

(** [theme === 'light'] on the value [useTheme()] yields, which may be
    undefined. *)
Definition is_light (theme : option string) : bool :=
  match theme with
  | Some t => String.eqb t "light"
  | None => false
  end.

(** The class of the page's root element. *)
Definition page_class (theme : option string) : string :=
  "min-h-screen "
    +:+ (if is_light theme then "bg-white text-black" else "bg-black text-white").

(** The class of the fixed header. *)
Definition header_class (theme : option string) : string :=
  "fixed top-0 left-0 right-0 z-50 flex items-center justify-between p-4 "
    +:+ (if is_light theme then "bg-white/90" else "bg-black/90")
    +:+ " backdrop-blur".

(** The class of the block shown in place of a missing cover or avatar. *)
Definition placeholder_class (theme : option string) : string :=
  "w-full h-full flex items-center justify-center "
    +:+ (if is_light theme then "bg-gray-100" else "bg-gray-900").

End ProfileTheme.

(** * Properties *)

Lemma truthy_string_spec (s : string) : truthy_string s = true ↔ s ≠ "".
Proof.
  unfold truthy_string. destruct (String.eqb_spec s ""); simpl; split; congruence.
Qed.

Lemma truthy_nonempty (v : option string) : truthy v = true ↔ nonempty v.
Proof.
  unfold nonempty. destruct v as [s|]; simpl.
  - rewrite truthy_string_spec. naive_solver.
  - naive_solver.
Qed.

Lemma Exists_when_truthy {E} (P : E → Prop) (v : option string) (f : string → E) :
  Exists P (when_truthy v f) ↔ ∃ s, v = Some s ∧ s ≠ "" ∧ P (f s).
Proof.
  unfold when_truthy. destruct v as [s|].
  - destruct (truthy_string s) eqn:Hs.
    + apply truthy_string_spec in Hs. rewrite Exists_cons, Exists_nil. naive_solver.
    + assert (¬ s ≠ "") by (rewrite <- truthy_string_spec; congruence).
      rewrite Exists_nil. naive_solver.
  - rewrite Exists_nil. naive_solver.
Qed.

Section bottom_nav.
Import BottomNav.

Lemma profile_link_rendered pathname config st :
  target_of "Eu" (render pathname config st) = Some (profile_link_to (session st)).
Proof. reflexivity. Qed.

Lemma auth_change_replaces_session st event s :
  mounted st = true → session (step st (AuthStateChange event s)) = s.
Proof. intros Hm. unfold step. rewrite Hm. reflexivity. Qed.

(** C1. Whatever the held session, the link labelled "Eu" points to
    /perfil when a session is present and to /login when it is absent;
    and an auth-state-change notification delivered to the mounted
    component replaces the held session, so the next render of the same
    link points to the target of the new session. *)
Theorem C1_profile_link_follows_session :
  ∀ (pathname : string) (config : option SiteConfig) (st : State),
    target_of "Eu" (render pathname config st)
      = Some (match session st with Some _ => "/perfil" | None => "/login" end)
    ∧ ∀ (event : string) (s : option Session),
        mounted st = true →
        session (step st (AuthStateChange event s)) = s
        ∧ target_of "Eu" (render pathname config (step st (AuthStateChange event s)))
            = Some (match s with Some _ => "/perfil" | None => "/login" end).
Proof.
  intros pathname config st. split.
  - apply profile_link_rendered.
  - intros event s Hm. split.
    + by apply auth_change_replaces_session.
    + rewrite profile_link_rendered, auth_change_replaces_session by done.
      reflexivity.
Qed.

(** The scenario of the specification: no session at first, then a
    sign-in notification arrives. *)
Lemma C1_profile_link_follows_session_witness :
  let s := {| access_token := "t0"; session_user := {| user_id := "u1" |} |} in
  target_of "Eu" (render "/" None mount) = Some "/login"
  ∧ target_of "Eu"
      (render "/" None (step mount (AuthStateChange "SIGNED_IN" (Some s))))
    = Some "/perfil".
Proof.
  intros s.
  destruct (C1_profile_link_follows_session "/" None mount) as [H0 H1].
  split; [exact H0 |].
  destruct (H1 "SIGNED_IN" (Some Sample.session) eq_refl) as [_ H2]. exact H2.
Defined.

End bottom_nav.

Section places_page.
Import PlacesPage.

Lemma shows_when_truthy (i j : Icon) (v : option string) (h : string → string) :
  Exists (λ x, icon x = i) (when_truthy v (λ s, {| icon := j; href := h s |}))
  ↔ j = i ∧ nonempty v.
Proof. rewrite Exists_when_truthy. unfold nonempty. naive_solver. Qed.

Lemma shows_social_links (i : Icon) (sm : option Place.SocialMedia) :
  Exists (λ x, icon x = i) (social_links sm)
  ↔ (Facebook = i ∧ nonempty (sm ≫= Place.facebook))
    ∨ (Instagram = i ∧ nonempty (sm ≫= Place.instagram)).
Proof.
  destruct sm as [o|]; simpl.
  - rewrite Exists_app, !shows_when_truthy. reflexivity.
  - rewrite Exists_nil. unfold nonempty. naive_solver.
Qed.

Lemma card_shows (a : Affordance) (p : Place.Row) :
  shows a (card p) ↔ nonempty (affordance_field a p).
Proof.
  unfold shows. simpl.
  rewrite !Exists_app, !shows_when_truthy, shows_social_links.
  destruct a; simpl; naive_solver.
Qed.

(** C4. For every place record of the fetched list, the card rendered
    for it shows each contact affordance (phone, whatsapp, website,
    facebook, instagram, maps) if and only if the corresponding field of
    the record is non-empty; for facebook and instagram, if and only if
    the social_media object is present and its subfield is non-empty. *)
Theorem C4_contact_affordances :
  ∀ (q : Query (list Place.Row)) (ps : list Place.Row),
    isLoading q = false →
    query_data q = val ps →
    ∃ cs, render q = Grid cs
      ∧ length cs = length ps
      ∧ ∀ (i : nat) (p : Place.Row),
          ps !! i = Some p →
          ∃ c, cs !! i = Some c
            ∧ ∀ a, shows a c ↔ nonempty (affordance_field a p).
Proof.
  intros q ps Hl Hd. exists (card <$> ps). split; [| split].
  - unfold render. rewrite Hl, Hd. reflexivity.
  - apply length_fmap.
  - intros i p Hp. exists (card p). split.
    + rewrite list_lookup_fmap, Hp. reflexivity.
    + intros a. apply card_shows.
Qed.

End places_page.

#[export] Instance asc_total `{Collation} key : Total (asc key).
Proof.
  intros p q. unfold asc.
  destruct (key p) as [a|], (key q) as [c|];
    [apply (total collate) | by left | by right | by left].
Qed.

Section places_fetch.
Context `{Collation}.
Import PlacesPage.

Lemma places_queryFn_run b :
  queryFn b = (queryFn_k (places_response "name" b), b).
Proof. reflexivity. Qed.

Lemma places_response_ok b :
  fault b SELECT "places" = None →
  places_response "name" b
    = ok_with (Some (merge_sort (asc (λ p, Some (Place.name p))) (places b))).
Proof. intros Hf. unfold places_response. rewrite Hf. reflexivity. Qed.

Lemma places_response_error b :
  is_Some (error (places_response "name" b)) ↔ is_Some (fault b SELECT "places").
Proof.
  unfold places_response. destruct (fault b SELECT "places"); simpl.
  - split; eauto.
  - split; intros [? ?]; discriminate.
Qed.

Lemma titles_of_cards (ps : list Place.Row) :
  title <$> (card <$> ps) = Place.name <$> ps.
Proof. rewrite <- list_fmap_compose. reflexivity. Qed.

Lemma sorted_by_name (ps : list Place.Row) :
  Sorted collate (Place.name <$> merge_sort (asc (λ p, Some (Place.name p))) ps).
Proof.
  apply Sorted_fmap with (R1 := asc (λ p, Some (Place.name p))).
  - intros p q Hpq. exact Hpq.
  - apply Sorted_merge_sort. apply _.
Qed.

(** C5. The places query selects all rows of the places collection, and
    once it has settled on any table the backend holds, the page renders
    one card per row, in ascending order of the name field; the page
    keeps the order in which the rows were returned. *)
Theorem C5_places_in_name_order :
  ∀ (b : Backend),
    fault b SELECT "places" = None →
    (∃ rows, (queryFn b).1 = Returned (Some rows) ∧ rows ≡ₚ places b
       ∧ ∃ cs, page_after_fetch b = Grid cs
           ∧ title <$> cs = Place.name <$> rows
           ∧ cs ≡ₚ card <$> places b
           ∧ Sorted collate (title <$> cs)).
Proof.
  intros b Hf.
  exists (merge_sort (asc (λ p, Some (Place.name p))) (places b)).
  rewrite places_queryFn_run, places_response_ok by done. simpl.
  split; [done |]. split; [apply merge_sort_Permutation |].
  exists (card <$> merge_sort (asc (λ p, Some (Place.name p))) (places b)).
  split.
  - unfold page_after_fetch, fetch.
    rewrite places_queryFn_run, places_response_ok by done. reflexivity.
  - split; [apply titles_of_cards |]. split.
    + apply fmap_Permutation, merge_sort_Permutation.
    + rewrite titles_of_cards. apply sorted_by_name.
Qed.

Lemma places_queryFn_k_throws (resp : Response (list Place.Row)) (x : Exn) :
  queryFn_k resp = Thrown x ↔ ∃ e, error resp = Some e ∧ x = Postgrest e.
Proof.
  unfold queryFn_k. destruct (error resp) as [e|]; split.
  - intros [= <-]. eauto.
  - intros (e' & [= <-] & ->). reflexivity.
  - discriminate.
  - intros (e' & ? & _). discriminate.
Qed.

Lemma render_spinner (q : Query (list Place.Row)) :
  render q = Spinner ↔ query_status q = pending.
Proof.
  unfold render, isLoading. destruct (query_status q); split; congruence.
Qed.

(** C8. The places query function throws exactly when the row store's
    response carries an error (it throws that error) and returns the
    response's data otherwise; the cache layer absorbs the exception,
    keeping it as the query's error state; the page renders the spinner
    exactly while the query is pending, and has no branch of its own for
    a failed fetch: a query in the error state renders the same grid as a
    successful one with the same data, an empty grid after a first fetch
    that failed. *)
Theorem C8_places_fetch_failure :
  (∀ (resp : Response (list Place.Row)),
     ((∃ x, queryFn_k resp = Thrown x) ↔ is_Some (error resp))
     ∧ (∀ e, error resp = Some e → queryFn_k resp = Thrown (Postgrest e))
     ∧ (error resp = None → queryFn_k resp = Returned (data resp)))
  ∧ (∀ (b : Backend),
       (∃ x, (queryFn b).1 = Thrown x) ↔ is_Some (fault b SELECT "places"))
  ∧ (∀ (q : Query (list Place.Row)) (b : Backend) (x : Exn),
       (queryFn b).1 = Thrown x →
       query_status (fetch queryFn q b).1 = error_status
       ∧ query_error (fetch queryFn q b).1 = Some x
       ∧ query_data (fetch queryFn q b).1 = query_data q)
  ∧ render mounted_query = Spinner
  ∧ (∀ (q : Query (list Place.Row)), render q = Spinner ↔ query_status q = pending)
  ∧ (∀ (q q' : Query (list Place.Row)),
       query_status q = error_status →
       query_status q' = success →
       query_data q = query_data q' →
       render q = render q')
  ∧ (∀ (b : Backend) (e : PostgrestError),
       fault b SELECT "places" = Some e →
       page_after_fetch b = Grid []).
Proof.
  split_and!.
  - intros resp. split_and!.
    + split.
      * intros [x Hx]. apply places_queryFn_k_throws in Hx as (e & -> & _). eauto.
      * intros [e He]. exists (Postgrest e). apply places_queryFn_k_throws. eauto.
    + intros e He. apply places_queryFn_k_throws. eauto.
    + intros He. unfold queryFn_k. by rewrite He.
  - intros b. rewrite places_queryFn_run. simpl. split.
    + intros [x Hx]. apply places_queryFn_k_throws in Hx as (e & He & _).
      apply places_response_error. eauto.
    + intros [e He]%places_response_error.
      exists (Postgrest e). apply places_queryFn_k_throws. eauto.
  - intros q b x Hx. unfold fetch.
    destruct (queryFn b) as [r b']. simpl in *. by subst.
  - reflexivity.
  - apply render_spinner.
  - unfold render, isLoading. intros q q' -> -> ->. reflexivity.
  - intros b e Hf. unfold page_after_fetch, fetch.
    rewrite places_queryFn_run. unfold places_response. rewrite Hf. reflexivity.
Qed.

End places_fetch.

Section profile_fetch.
Import ProfilePage.

Lemma profile_queryFn_signed_out b :
  auth_user b = None → queryFn b = (Thrown NotAuthenticated, b).
Proof.
  intros Hu. unfold queryFn, mbind, Async_bind, await, getUser.
  rewrite Hu. reflexivity.
Qed.

Lemma profile_queryFn_signed_in b u :
  auth_user b = Some u →
  queryFn b = (Returned (data (profiles_single_response "id" (user_id u) b)), b).
Proof.
  intros Hu. unfold queryFn, mbind, Async_bind, await, getUser.
  rewrite Hu. reflexivity.
Qed.

Lemma single_response_row b col v r :
  fault b SELECT "profiles" = None →
  filter (eq_filter col v) (profiles b) = [r] →
  profiles_single_response col v b = ok_with (Some r).
Proof.
  intros Hf Hr. unfold profiles_single_response. rewrite Hf, Hr. reflexivity.
Qed.

Lemma single_response_fault b col v e :
  fault b SELECT "profiles" = Some e →
  profiles_single_response col v b = failed_with e.
Proof. intros Hf. unfold profiles_single_response. by rewrite Hf. Qed.

Lemma single_response_no_row b col v :
  fault b SELECT "profiles" = None →
  filter (eq_filter col v) (profiles b) = [] →
  profiles_single_response col v b = failed_with not_single_row.
Proof.
  intros Hf Hr. unfold profiles_single_response. rewrite Hf, Hr. reflexivity.
Qed.

(** C6. The profile query function throws, and throws NotAuthenticated,
    exactly when there is no authenticated identity; otherwise it issues
    the single-row select on the profiles collection filtered by the
    user's id and returns that response's data, which is the one row
    whose id equals the user's id when the store holds exactly one. *)
Theorem C6_fetch_profile :
  ∀ (b : Backend),
    ((queryFn b).1 = Thrown NotAuthenticated ↔ auth_user b = None)
    ∧ ((∃ x, (queryFn b).1 = Thrown x) ↔ auth_user b = None)
    ∧ (∀ u, auth_user b = Some u →
         (queryFn b).1
           = Returned (data (profiles_single_response "id" (user_id u) b))
         ∧ ∀ r, fault b SELECT "profiles" = None →
                filter (eq_filter "id" (user_id u)) (profiles b) = [r] →
                (queryFn b).1 = Returned (Some r)
                ∧ r ∈ profiles b
                ∧ r !! "id" = Some (Some (user_id u))
                ∧ ∀ r', r' ∈ profiles b →
                        r' !! "id" = Some (Some (user_id u)) → r' = r).
Proof.
  intros b. destruct (auth_user b) as [u|] eqn:Hu.
  - rewrite (profile_queryFn_signed_in b u Hu). simpl. split_and!.
    + split; discriminate.
    + split; [intros [x ?]; discriminate | discriminate].
    + intros u' [= <-]. split; [reflexivity |].
      intros r Hf Hr. rewrite (single_response_row _ _ _ r) by done.
      assert (∀ r', eq_filter "id" (user_id u) r' ∧ r' ∈ profiles b ↔ r' = r) as Hin.
      { intros r'. rewrite <- list_elem_of_filter, Hr. apply list_elem_of_singleton. }
      split_and!; [done | by apply (Hin r) | by apply (Hin r) |].
      intros r' ? ?. by apply Hin.
  - rewrite (profile_queryFn_signed_out b Hu). simpl. split_and!.
    + done.
    + split; eauto.
    + discriminate.
Qed.

(** C10. The profile query function never looks at the error of the
    response: whatever the row store answers, once the user check has
    passed it returns the response's data and does not throw; the data
    is null both when the select failed and when no row matched, although
    the response carries an error in both cases, and the cache layer
    records a success whose data is that null. *)
Theorem C10_profile_fetch_ignores_error :
  (∀ (resp : Response ProfileObj), queryFn_k resp = Returned (data resp))
  ∧ ∀ (b : Backend) (u : User) (q : Query ProfileObj),
      auth_user b = Some u →
      let resp := profiles_single_response "id" (user_id u) b in
      (queryFn b).1 = Returned (data resp)
      ∧ (is_Some (fault b SELECT "profiles") →
           is_Some (error resp) ∧ data resp = None)
      ∧ (fault b SELECT "profiles" = None →
         filter (eq_filter "id" (user_id u)) (profiles b) = [] →
           is_Some (error resp) ∧ data resp = None)
      ∧ query_status (fetch queryFn q b).1 = success
      ∧ query_error (fetch queryFn q b).1 = None
      ∧ query_data (fetch queryFn q b).1 = of_nullable (data resp).
Proof.
  split; [reflexivity |].
  intros b u q Hu resp. unfold fetch.
  rewrite (profile_queryFn_signed_in b u Hu). fold resp. simpl. split_and!; try done.
  - intros [e He]. subst resp. rewrite (single_response_fault _ _ _ e He). eauto.
  - intros Hf Hr. subst resp. rewrite single_response_no_row by done. eauto.
Qed.

End profile_fetch.

Section profile_update.
Import ProfilePage.

Lemma mutationFn_signed_out values b :
  auth_user b = None → mutationFn values b = (Thrown NotAuthenticated, b).
Proof.
  intros Hu. unfold mutationFn, mbind, Async_bind, await, getUser.
  rewrite Hu. reflexivity.
Qed.

Lemma mutationFn_refused values b u e :
  auth_user b = Some u →
  update_refusal values "id" (user_id u) b = Some e →
  mutationFn values b
    = (Thrown (Postgrest e), receive (update_request values u) b).
Proof.
  intros Hu He.
  unfold mutationFn, mbind, Async_bind, await, getUser, profiles_update_eq.
  rewrite Hu, He. reflexivity.
Qed.

Lemma mutationFn_accepted values b u :
  auth_user b = Some u →
  update_refusal values "id" (user_id u) b = None →
  mutationFn values b
    = (Returned true,
       with_profiles (update_rows values "id" (user_id u) (profiles b))
         (receive (update_request values u) b)).
Proof.
  intros Hu He.
  unfold mutationFn, mbind, Async_bind, await, getUser, profiles_update_eq.
  rewrite Hu, He. reflexivity.
Qed.

Lemma patch_lookup_set (values r : ProfileObj) (k : string) (x : option string) :
  values !! k = Some x → patch values r !! k = Some x.
Proof. intros Hk. unfold patch. by apply lookup_union_Some_l. Qed.

Lemma patch_lookup_unset (values r : ProfileObj) (k : string) :
  values !! k = None → patch values r !! k = r !! k.
Proof. intros Hk. unfold patch. by apply lookup_union_r. Qed.

Lemma patch_keeps_match (values r : ProfileObj) (v : string) :
  values !! "id" = None ∨ values !! "id" = Some (Some v) →
  eq_filter "id" v r → eq_filter "id" v (patch values r).
Proof.
  unfold eq_filter. intros [Hk|Hk] Hr.
  - by rewrite patch_lookup_unset.
  - by apply patch_lookup_set.
Qed.

Lemma filter_update_rows (values : ProfileObj) (v : string) (rows : list ProfileObj) :
  values !! "id" = None ∨ values !! "id" = Some (Some v) →
  filter (eq_filter "id" v) (update_rows values "id" v rows)
    = patch values <$> filter (eq_filter "id" v) rows.
Proof.
  intros Hid. unfold update_rows.
  induction rows as [|r rows IH]; [reflexivity |].
  rewrite fmap_cons. destruct (decide (eq_filter "id" v r)) as [Hr|Hr].
  - rewrite !filter_cons_True by eauto using patch_keeps_match.
    rewrite fmap_cons. by f_equal.
  - by rewrite !filter_cons_False.
Qed.

Lemma update_rows_lookup values col v rows (i : nat) (r : ProfileObj) :
  rows !! i = Some r →
  update_rows values col v rows !! i
    = Some (if decide (eq_filter col v r) then patch values r else r).
Proof. intros Hr. unfold update_rows. by rewrite list_lookup_fmap, Hr. Qed.

(** The three ways [mutationFn] can settle. *)
Lemma mutationFn_settlement values b :
  (auth_user b = None
   ∧ mutationFn values b = (Thrown NotAuthenticated, b))
  ∨ (∃ u e, auth_user b = Some u
       ∧ update_refusal values "id" (user_id u) b = Some e
       ∧ mutationFn values b
           = (Thrown (Postgrest e), receive (update_request values u) b))
  ∨ (∃ u, auth_user b = Some u
       ∧ update_refusal values "id" (user_id u) b = None
       ∧ mutationFn values b
           = (Returned true,
              with_profiles (update_rows values "id" (user_id u) (profiles b))
                (receive (update_request values u) b))).
Proof.
  destruct (auth_user b) as [u|] eqn:Hu.
  - destruct (update_refusal values "id" (user_id u) b) as [e|] eqn:He.
    + right; left. exists u, e. eauto using mutationFn_refused.
    + right; right. exists u. eauto using mutationFn_accepted.
  - left. auto using mutationFn_signed_out.
Qed.

Lemma mutationFn_returns_true values b (ok : bool) :
  (mutationFn values b).1 = Returned ok → ok = true.
Proof.
  destruct (mutationFn_settlement values b)
    as [[_ ->]|[(u & e & _ & _ & ->)|(u & _ & _ & ->)]]; simpl; congruence.
Qed.

Lemma mutationFn_thrown_keeps_rows values b x :
  (mutationFn values b).1 = Thrown x → profiles (mutationFn values b).2 = profiles b.
Proof.
  destruct (mutationFn_settlement values b)
    as [[_ ->]|[(u & e & _ & _ & ->)|(u & _ & _ & ->)]]; simpl; congruence.
Qed.

(** After an accepted update of the user's one row, the refetch that the
    invalidation starts yields the patched row. *)
Lemma refetch_reflects_update values st b u r :
  auth_user b = Some u →
  update_refusal values "id" (user_id u) b = None →
  fault b SELECT "profiles" = None →
  filter (eq_filter "id" (user_id u)) (profiles b) = [r] →
  values !! "id" = None ∨ values !! "id" = Some (Some (user_id u)) →
  let w := mutation_settles values st b in
  isFetching (profile_query w.1) = true
  ∧ filter (eq_filter "id" (user_id u)) (profiles w.2) = [patch values r]
  ∧ query_data (profile_query (profile_fetch_settles w.1 w.2).1)
      = val (patch values r).
Proof.
  intros Hu Hok Hsel Hr Hid w. subst w. unfold mutation_settles.
  rewrite (mutationFn_accepted values b u Hu Hok). simpl.
  set (b' := with_profiles _ _).
  assert (filter (eq_filter "id" (user_id u)) (profiles b') = [patch values r]) as Hr'.
  { subst b'. simpl. rewrite filter_update_rows, Hr by done. reflexivity. }
  split_and!; [reflexivity | exact Hr' |].
  unfold profile_fetch_settles, fetch.
  rewrite (profile_queryFn_signed_in b' u) by done.
  rewrite (single_response_row b' _ _ (patch values r)) by done.
  simpl. unfold profile_effect. simpl.
  by destruct (decide _).
Qed.

Lemma mutation_settles_returned values st b (ok : bool) :
  (mutationFn values b).1 = Returned ok →
  (mutation_settles values st b).1 = onSuccess st.
Proof.
  unfold mutation_settles. destruct (mutationFn values b) as [[?|?] ?]; simpl; congruence.
Qed.

Lemma mutation_settles_thrown values st b x :
  (mutationFn values b).1 = Thrown x →
  (mutation_settles values st b).1 = set_mutation_error (Some x) st.
Proof.
  unfold mutation_settles. destruct (mutationFn values b) as [[?|?] ?]; simpl; congruence.
Qed.

Lemma mutation_settles_backend values st b :
  (mutation_settles values st b).2 = (mutationFn values b).2.
Proof.
  unfold mutation_settles. by destruct (mutationFn values b) as [[?|?] ?].
Qed.

(** C3. For every partial profile value, updateProfile fails with
    NotAuthenticated, without contacting the row store, when there is no
    authenticated identity; otherwise it sends one update of the profiles
    collection carrying that value and filtered on the user's id, which
    leaves every row with another id as it was and, when accepted,
    patches the rows with that id; the cached profile query is
    invalidated and the success notification emitted when the mutation
    function returned, and neither happens when it threw; and after an
    accepted update of the user's row, the refetch started by the
    invalidation yields the patched row, in which every field of the
    submitted value reads as submitted. *)
Theorem C3_update_profile :
  ∀ (values : ProfileObj) (st : State) (b : Backend),
    (auth_user b = None →
       mutationFn values b = (Thrown NotAuthenticated, b))
    ∧ (∀ u, auth_user b = Some u →
         received (mutationFn values b).2
           = received b ++ [update_request values u]
         ∧ ∀ (i : nat) (r : ProfileObj),
             profiles b !! i = Some r →
             (r !! "id" ≠ Some (Some (user_id u)) →
                profiles (mutationFn values b).2 !! i = Some r)
             ∧ (r !! "id" = Some (Some (user_id u)) →
                (mutationFn values b).1 = Returned true →
                profiles (mutationFn values b).2 !! i = Some (patch values r)))
    ∧ ((mutationFn values b).1 = Returned true →
         profile_query (mutation_settles values st b).1
           = invalidated (profile_query st)
         ∧ toasts (mutation_settles values st b).1
           = toasts st ++ [toast_updated])
    ∧ (∀ x, (mutationFn values b).1 = Thrown x →
         profile_query (mutation_settles values st b).1 = profile_query st
         ∧ toasts (mutation_settles values st b).1 = toasts st
         ∧ mutation_error (mutation_settles values st b).1 = Some x
         ∧ profiles (mutation_settles values st b).2 = profiles b)
    ∧ (∀ u r,
         auth_user b = Some u →
         update_refusal values "id" (user_id u) b = None →
         fault b SELECT "profiles" = None →
         filter (eq_filter "id" (user_id u)) (profiles b) = [r] →
         values !! "id" = None ∨ values !! "id" = Some (Some (user_id u)) →
         (mutationFn values b).1 = Returned true
         ∧ isFetching (profile_query (mutation_settles values st b).1) = true
         ∧ query_data
             (profile_query
                (profile_fetch_settles (mutation_settles values st b).1
                   (mutation_settles values st b).2).1)
           = val (patch values r)
         ∧ ∀ k x, values !! k = Some x → patch values r !! k = Some x).
Proof.
  intros values st b. split_and!.
  - apply mutationFn_signed_out.
  - intros u Hu.
    destruct (mutationFn_settlement values b)
      as [[? _]|[(u' & e & Hu' & _ & ->)|(u' & Hu' & _ & ->)]];
      [congruence | |]; assert (u' = u) as -> by congruence; simpl.
    + split; [reflexivity |]. intros i r Hr. split; [done | discriminate].
    + split; [reflexivity |]. intros i r Hr.
      rewrite (update_rows_lookup _ _ _ _ _ r Hr). unfold eq_filter.
      split; intros ?; by destruct (decide _).
  - intros Hok. rewrite (mutation_settles_returned _ _ _ true Hok). done.
  - intros x Hx. rewrite (mutation_settles_thrown _ _ _ x Hx).
    rewrite mutation_settles_backend.
    split_and!; [done | done | done |]. eauto using mutationFn_thrown_keeps_rows.
  - intros u r Hu Hok Hsel Hr Hid.
    destruct (refetch_reflects_update values st b u r) as (Hf & _ & Hd); try done.
    split_and!; [| done | done | by apply patch_lookup_set].
    by rewrite (mutationFn_accepted values b u).
Qed.

End profile_update.

Section profile_delete.
Import ProfilePage.

Lemma settle_failed_delete values (t : Toast) st b x :
  in_flight st = [] →
  (mutationFn values b).1 = Thrown x →
  let st1 := toast t (setIsDeleteDialogOpen false (mutate values st)) in
  toasts (handle MutationSettles st1 b).1 = toasts st ++ [t]
  ∧ isDeleteDialogOpen (handle MutationSettles st1 b).1 = false
  ∧ mutation_error (handle MutationSettles st1 b).1 = Some x
  ∧ profile_query (handle MutationSettles st1 b).1 = profile_query st
  ∧ profiles (handle MutationSettles st1 b).2 = profiles b.
Proof.
  intros Hq Hx. simpl. rewrite Hq. simpl.
  rewrite (mutation_settles_thrown _ _ _ x Hx), mutation_settles_backend.
  split_and!; try reflexivity. eauto using mutationFn_thrown_keeps_rows.
Qed.

(** C9. Whenever handleDeleteAvatar or handleDeleteCover is invoked, it
    emits its "removed successfully" notification and closes the delete
    dialog in the same call that starts the updateProfile mutation: the
    mutation is still in flight and the backend has not been contacted.
    When the mutation later fails, the notification stays, no update
    notification follows, and the stored rows are unchanged. *)
Theorem C9_delete_notifies_before_settlement :
  ∀ (st : State) (b : Backend),
    (handle ClickExcluirFotoDePerfil st b = (handleDeleteAvatar st, b)
     ∧ toasts (handleDeleteAvatar st) = toasts st ++ [toast_avatar_removed]
     ∧ isDeleteDialogOpen (handleDeleteAvatar st) = false
     ∧ in_flight (handleDeleteAvatar st)
         = in_flight st ++ [{["avatar_url" := None]}])
    ∧ (handle ClickExcluirFotoDeCapa st b = (handleDeleteCover st, b)
       ∧ toasts (handleDeleteCover st) = toasts st ++ [toast_cover_removed]
       ∧ isDeleteDialogOpen (handleDeleteCover st) = false
       ∧ in_flight (handleDeleteCover st)
           = in_flight st ++ [{["cover_url" := None]}])
    ∧ (∀ x, in_flight st = [] →
            (mutationFn {["avatar_url" := None]} b).1 = Thrown x →
            toasts (handle MutationSettles (handleDeleteAvatar st) b).1
              = toasts st ++ [toast_avatar_removed]
            ∧ isDeleteDialogOpen (handle MutationSettles (handleDeleteAvatar st) b).1
              = false
            ∧ mutation_error (handle MutationSettles (handleDeleteAvatar st) b).1
              = Some x
            ∧ profiles (handle MutationSettles (handleDeleteAvatar st) b).2
              = profiles b)
    ∧ (∀ x, in_flight st = [] →
            (mutationFn {["cover_url" := None]} b).1 = Thrown x →
            toasts (handle MutationSettles (handleDeleteCover st) b).1
              = toasts st ++ [toast_cover_removed]
            ∧ isDeleteDialogOpen (handle MutationSettles (handleDeleteCover st) b).1
              = false
            ∧ mutation_error (handle MutationSettles (handleDeleteCover st) b).1
              = Some x
            ∧ profiles (handle MutationSettles (handleDeleteCover st) b).2
              = profiles b).
Proof.
  intros st b. split_and!; try reflexivity.
  - intros x Hq Hx.
    destruct (settle_failed_delete {["avatar_url" := None]} toast_avatar_removed
                (form_setValue "avatar_url" None st) b x Hq Hx)
      as (? & ? & ? & ? & ?).
    by split_and!.
  - intros x Hq Hx.
    destruct (settle_failed_delete {["cover_url" := None]} toast_cover_removed
                (form_setValue "cover_url" None st) b x Hq Hx)
      as (? & ? & ? & ? & ?).
    by split_and!.
Qed.

Lemma update_accepts values col v b :
  fault b UPDATE "profiles" = None →
  values !! "id" ≠ Some None →
  update_refusal values col v b = None.
Proof.
  intros Hf Hid. unfold update_refusal. rewrite Hf.
  destruct (decide _) as [[? _]|]; [done | reflexivity].
Qed.

Lemma picture_of_empty (url : js string) (alt fallback text : string) :
  truthy_js url = false → picture url alt fallback text = Placeholder text.
Proof. destruct url as [| |s]; simpl; [done | done |]. by intros ->. Qed.

Lemma profile_fetch_settles_backend st b : (profile_fetch_settles st b).2 = b.
Proof.
  unfold profile_fetch_settles, fetch. destruct (auth_user b) as [u|] eqn:Hu.
  - by rewrite (profile_queryFn_signed_in b u Hu).
  - by rewrite (profile_queryFn_signed_out b Hu).
Qed.

(** A delete button is pressed, the mutation it starts is accepted, and
    the refetch settles. *)
Lemma delete_then_refetch (ev : Event) (k : string) (st st1 : State)
    (b : Backend) (u : User) (r : ProfileObj) :
  enabled st ev = true →
  handle ev st b = (st1, b) →
  in_flight st1 = [{[k := None]}] →
  k ≠ "id" →
  auth_user b = Some u →
  fault b UPDATE "profiles" = None →
  fault b SELECT "profiles" = None →
  filter (eq_filter "id" (user_id u)) (profiles b) = [r] →
  filter (eq_filter "id" (user_id u))
    (profiles (run (st, b) [ev; MutationSettles; ProfileFetchSettles]).2)
    = [<[k := None]> r]
  ∧ query_data
      (profile_query (run (st, b) [ev; MutationSettles; ProfileFetchSettles]).1)
    = val (<[k := None]> r).
Proof.
  intros Hen Hev Hq Hk Hu Hupd Hsel Hr.
  assert (({[k := None]} : ProfileObj) !! "id" = None) as Hid
    by by apply lookup_singleton_ne.
  destruct (refetch_reflects_update {[k := None]} (set_in_flight [] st1) b u r)
    as (Hfetching & Hrows & Hdata); try done.
  { apply update_accepts; [done | by rewrite Hid]. }
  { by left. }
  unfold patch in Hrows, Hdata. rewrite <- insert_union_singleton_l in Hrows, Hdata.
  assert (step (st, b) ev = (st1, b)) as Hstep1.
  { unfold step. simpl. by rewrite Hen. }
  assert (step (st1, b) MutationSettles
          = mutation_settles {[k := None]} (set_in_flight [] st1) b) as Hstep2.
  { unfold step. simpl. by rewrite Hq. }
  unfold run. simpl. rewrite Hstep1, Hstep2.
  unfold step, enabled. rewrite Hfetching. simpl.
  by rewrite profile_fetch_settles_backend.
Qed.

(** C2, as the code has it. The delete-avatar operation writes null to
    the form's avatar_url and starts an updateProfile mutation whose only
    field is avatar_url, set to null; once that update is accepted and
    the profile refetched, the user's row has an empty avatar_url. For
    every profile state whose avatar_url is empty, the page renders the
    text block "Sem foto de perfil" in place of the avatar: no image
    element at all, so neither the prior URL nor the placeholder image.
    The same holds of delete-cover, cover_url and "Sem Capa de Perfil".
    The placeholder image is what an image element with a non-empty URL
    displays when that URL fails to load. *)
Theorem C2_delete_shows_text_placeholder :
  ∀ (st : State),
    (in_flight (handleDeleteAvatar st) = in_flight st ++ [{["avatar_url" := None]}]
     ∧ form (handleDeleteAvatar st) !! "avatar_url" = Some None)
    ∧ (in_flight (handleDeleteCover st) = in_flight st ++ [{["cover_url" := None]}]
       ∧ form (handleDeleteCover st) !! "cover_url" = Some None)
    ∧ (truthy_js (get_opt "avatar_url" (query_data (profile_query st))) = false →
         avatar (render st) = Placeholder "Sem foto de perfil"
         ∧ ∀ loads, displayed loads (avatar (render st)) = None)
    ∧ (truthy_js (get_opt "cover_url" (query_data (profile_query st))) = false →
         cover (render st) = Placeholder "Sem Capa de Perfil"
         ∧ ∀ loads, displayed loads (cover (render st)) = None)
    ∧ (∀ s loads,
         get_opt "avatar_url" (query_data (profile_query st)) = val s →
         s ≠ "" →
         displayed loads (avatar (render st))
           = Some (if loads s then s else defaultAvatarImage))
    ∧ (∀ (b : Backend) (u : User) (r : ProfileObj),
         isDeleteDialogOpen st = true →
         in_flight st = [] →
         auth_user b = Some u →
         fault b UPDATE "profiles" = None →
         fault b SELECT "profiles" = None →
         filter (eq_filter "id" (user_id u)) (profiles b) = [r] →
         (let w := run (st, b)
                     [ClickExcluirFotoDePerfil; MutationSettles; ProfileFetchSettles] in
          filter (eq_filter "id" (user_id u)) (profiles w.2)
            = [<["avatar_url" := None]> r]
          ∧ avatar (render w.1) = Placeholder "Sem foto de perfil")
         ∧ (let w := run (st, b)
                       [ClickExcluirFotoDeCapa; MutationSettles; ProfileFetchSettles] in
            filter (eq_filter "id" (user_id u)) (profiles w.2)
              = [<["cover_url" := None]> r]
            ∧ cover (render w.1) = Placeholder "Sem Capa de Perfil")).
Proof.
  intros st. split_and!.
  - reflexivity.
  - apply lookup_insert_eq.
  - reflexivity.
  - apply lookup_insert_eq.
  - intros He. unfold render. simpl. rewrite picture_of_empty by done. done.
  - intros He. unfold render. simpl. rewrite picture_of_empty by done. done.
  - intros s loads Hs Hne. unfold render. simpl. rewrite Hs. simpl.
    apply truthy_string_spec in Hne. by rewrite Hne.
  - intros b u r Hopen Hq Hu Hupd Hsel Hr. split.
    + destruct (delete_then_refetch ClickExcluirFotoDePerfil "avatar_url"
                  st (handleDeleteAvatar st) b u r) as [Hrows Hdata]; try done.
      { simpl. by rewrite Hq. }
      simpl. split; [exact Hrows |].
      unfold render. simpl. unfold run in Hdata. simpl in Hdata. rewrite Hdata.
      simpl. by rewrite lookup_insert_eq.
    + destruct (delete_then_refetch ClickExcluirFotoDeCapa "cover_url"
                  st (handleDeleteCover st) b u r) as [Hrows Hdata]; try done.
      { simpl. by rewrite Hq. }
      simpl. split; [exact Hrows |].
      unfold render. simpl. unfold run in Hdata. simpl in Hdata. rewrite Hdata.
      simpl. by rewrite lookup_insert_eq.
Qed.

End profile_delete.

Section profile_payloads.
Import ProfilePage.

Lemma object_photos_lookup (a c : js string) (k : string) :
  object [("avatar_url", a); ("cover_url", c)] !! k
    = if decide (k = "avatar_url")
      then match a with undefined => None | null => Some None | val s => Some (Some s) end
      else if decide (k = "cover_url")
      then match c with undefined => None | null => Some None | val s => Some (Some s) end
      else None.
Proof.
  destruct a, c; simpl; repeat case_decide; by simplify_map_eq.
Qed.

Lemma form_getValue_lookup (k : string) (st : State) :
  match form_getValue k st with
  | undefined => None
  | null => Some None
  | val s => Some (Some s)
  end = form st !! k.
Proof.
  unfold form_getValue, get_opt. by destruct (form st !! k) as [[s|]|].
Qed.

Lemma profile_fetch_resets_form st b u r :
  auth_user b = Some u →
  fault b SELECT "profiles" = None →
  filter (eq_filter "id" (user_id u)) (profiles b) = [r] →
  query_data (profile_query st) ≠ val r →
  form (profile_fetch_settles st b).1 = r.
Proof.
  intros Hu Hsel Hr Hnew. unfold profile_fetch_settles, fetch.
  rewrite (profile_queryFn_signed_in b u Hu).
  rewrite (single_response_row b _ _ r) by done. simpl.
  unfold profile_effect. simpl. by destruct (decide _).
Qed.

(** C7, as the code has it. Every profile mutation issued by this code
    is an update whose payload is a partial profile, and exactly the
    value handed to the mutation is what the row store receives. The two
    delete handlers send only the one URL field, as null. The photo
    dialog sends the avatar_url and cover_url values the form currently
    holds, and no other field, whether or not the user changed them. The
    edit form sends every value the form holds: after the fetched profile
    has been loaded into the form and the user has edited one field, the
    payload still carries every other field of the fetched profile. *)
Theorem C7_update_payloads :
  ∀ (st : State),
    in_flight (handleSubmit st) = in_flight st ++ [form st]
    ∧ (∃ v, in_flight (handleSavePhotos st) = in_flight st ++ [v]
         ∧ v !! "avatar_url" = form st !! "avatar_url"
         ∧ v !! "cover_url" = form st !! "cover_url"
         ∧ ∀ k, k ≠ "avatar_url" → k ≠ "cover_url" → v !! k = None)
    ∧ in_flight (handleDeleteAvatar st) = in_flight st ++ [{["avatar_url" := None]}]
    ∧ in_flight (handleDeleteCover st) = in_flight st ++ [{["cover_url" := None]}]
    ∧ (∀ ev b,
         in_flight (handle ev st b).1 = in_flight st
         ∨ ev = MutationSettles
         ∨ ev ∈ [SubmitForm; ClickSalvarAlteracoes;
                 ClickExcluirFotoDePerfil; ClickExcluirFotoDeCapa])
    ∧ (∀ values b u,
         auth_user b = Some u →
         received (mutationFn values b).2 = received b ++ [update_request values u])
    ∧ (∀ b u r,
         auth_user b = Some u →
         fault b SELECT "profiles" = None →
         filter (eq_filter "id" (user_id u)) (profiles b) = [r] →
         query_data (profile_query st) ≠ val r →
         form (profile_fetch_settles st b).1 = r)
    ∧ (∀ text k,
         k ≠ "username" →
         ∃ v, in_flight (handleSubmit (form_setValue "username" (Some text) st))
                = in_flight st ++ [v]
           ∧ v !! "username" = Some (Some text)
           ∧ v !! k = form st !! k).
Proof.
  intros st. split_and!.
  - reflexivity.
  - eexists. split; [reflexivity |].
    split_and!; [| | intros k ? ?]; rewrite object_photos_lookup;
      repeat case_decide; try done; apply form_getValue_lookup.
  - reflexivity.
  - reflexivity.
  - intros ev b. destruct ev; simpl;
      try (by left); try (by right; left);
      try (right; right; set_solver).
    + left. unfold profile_fetch_settles, fetch, profile_effect.
      destruct (queryFn b) as [res b']. simpl.
      destruct (settled _ _) as [? [| |p] ? ?]; simpl; try done.
      by destruct (decide _).
  - intros values b u Hu.
    destruct (mutationFn_settlement values b)
      as [[? _]|[(u' & e & Hu' & _ & ->)|(u' & Hu' & _ & ->)]];
      [congruence | |]; by assert (u' = u) as -> by congruence.
  - apply profile_fetch_resets_form.
  - intros text k Hk. eexists. split; [reflexivity |]. simpl.
    split; [apply lookup_insert_eq | by apply lookup_insert_ne].
Qed.

End profile_payloads.

(** * The properties on sample data *)

Section on_sample_data.
Import ProfilePage.

(** The scenario of the bottom bar: a visitor without a session, then a
    sign-in, then a sign-out, all in one mounted component. *)
Example bottom_nav_scenario :
  (λ evs, BottomNav.target_of "Eu"
            (BottomNav.render "/" None (BottomNav.run BottomNav.mount evs)))
    <$> [ [];
          [BottomNav.GetSessionResolved None];
          [BottomNav.GetSessionResolved None;
           BottomNav.AuthStateChange "SIGNED_IN" (Some Sample.session)];
          [BottomNav.GetSessionResolved None;
           BottomNav.AuthStateChange "SIGNED_IN" (Some Sample.session);
           BottomNav.AuthStateChange "SIGNED_OUT" None] ]
  = [Some "/login"; Some "/login"; Some "/perfil"; Some "/login"].
Proof. reflexivity. Qed.

(** The photo dialog sends both links although only one was typed. *)
Example photo_dialog_sends_both_links :
  let w := run (mount, Sample.backend (Some Sample.ana) Sample.online)
             [ProfileFetchSettles; ClickEditarFoto;
              TypeAvatarLink "https://img.example/new.png";
              ClickSalvarAlteracoes] in
  in_flight w.1
    = [ {[ "avatar_url" := Some "https://img.example/new.png";
           "cover_url" := None ]} ].
Proof. vm_compute. reflexivity. Qed.

Example whatsapp_link_keeps_digits :
  PlacesPage.contacts (PlacesPage.card Sample.cafe)
    = [ {| PlacesPage.icon := PlacesPage.Phone;
           PlacesPage.href := "tel:+55 (87) 9999-0000" |};
        {| PlacesPage.icon := PlacesPage.MessageCircle;
           PlacesPage.href := "https://wa.me/558799990000" |};
        {| PlacesPage.icon := PlacesPage.Facebook;
           PlacesPage.href := "https://fb.example/cafe" |} ].
Proof. reflexivity. Qed.

Example sample_places_sorted :
  PlacesPage.page_after_fetch (Sample.backend None Sample.online)
    = PlacesPage.Grid
        (PlacesPage.card <$>
           [Sample.place "p2" "Balneario"; Sample.cafe; Sample.place "p1" "Mercado"]).
Proof. vm_compute. reflexivity. Qed.

Lemma C4_contact_affordances_witness :
  let ps := [Sample.cafe; Sample.place "p1" "Mercado"] in
  let q := settled mounted_query (Returned (Some ps)) in
  isLoading q = false
  ∧ query_data q = val ps
  ∧ ∃ cs, PlacesPage.render q = PlacesPage.Grid cs
      ∧ length cs = length ps
      ∧ ∀ (i : nat) (p : Place.Row),
          ps !! i = Some p →
          ∃ c, cs !! i = Some c
            ∧ ∀ a, shows a c ↔ nonempty (affordance_field a p).
Proof.
  intros ps q. split; [reflexivity |]. split; [reflexivity |].
  apply (C4_contact_affordances q ps); reflexivity.
Defined.

Lemma C5_places_in_name_order_witness :
  let b := Sample.backend None Sample.online in
  fault b SELECT "places" = None
  ∧ ∃ rows, (PlacesPage.queryFn b).1 = Returned (Some rows)
      ∧ rows ≡ₚ places b
      ∧ ∃ cs, PlacesPage.page_after_fetch b = PlacesPage.Grid cs
          ∧ PlacesPage.title <$> cs = Place.name <$> rows
          ∧ cs ≡ₚ PlacesPage.card <$> places b
          ∧ Sorted collate (PlacesPage.title <$> cs).
Proof.
  intros b. split; [reflexivity |].
  apply (@C5_places_in_name_order byte_collation b). reflexivity.
Defined.

Lemma C8_places_fetch_failure_witness :
  let b := Sample.backend None Sample.offline in
  fault b SELECT "places" = Some Sample.outage
  ∧ (PlacesPage.queryFn b).1 = Thrown (Postgrest Sample.outage)
  ∧ PlacesPage.page_after_fetch b = PlacesPage.Grid [].
Proof.
  intros b.
  destruct (@C8_places_fetch_failure byte_collation) as (_ & _ & _ & _ & _ & _ & Hpage).
  split; [reflexivity |]. split; [reflexivity |].
  apply (Hpage b Sample.outage). reflexivity.
Defined.

Lemma C6_fetch_profile_witness :
  let b := Sample.backend (Some Sample.ana) Sample.online in
  auth_user b = Some Sample.ana
  ∧ fault b SELECT "profiles" = None
  ∧ filter (eq_filter "id" "u1") (profiles b) = [Sample.ana_row]
  ∧ (queryFn b).1 = Returned (Some Sample.ana_row)
  ∧ (queryFn (Sample.backend None Sample.online)).1 = Thrown NotAuthenticated.
Proof.
  intros b.
  assert (filter (eq_filter "id" "u1") (profiles b) = [Sample.ana_row]) as Hrow
    by (vm_compute; reflexivity).
  destruct (C6_fetch_profile b) as (_ & _ & Hin).
  destruct (Hin Sample.ana eq_refl) as [_ Hsel].
  destruct (Hsel Sample.ana_row eq_refl Hrow) as [Hres _].
  destruct (C6_fetch_profile (Sample.backend None Sample.online)) as ([_ Hout] & _).
  split_and!; [reflexivity | reflexivity | exact Hrow | exact Hres |].
  apply Hout. reflexivity.
Defined.

Lemma C10_profile_fetch_ignores_error_witness :
  let b := Sample.backend (Some Sample.ana) Sample.offline in
  auth_user b = Some Sample.ana
  ∧ is_Some (fault b SELECT "profiles")
  ∧ (queryFn b).1 = Returned None
  ∧ query_status (fetch queryFn mounted_query b).1 = success
  ∧ query_data (fetch queryFn mounted_query b).1 = null.
Proof.
  intros b.
  destruct C10_profile_fetch_ignores_error as [_ Hfetch].
  destruct (Hfetch b Sample.ana mounted_query eq_refl)
    as (Hres & Hfault & _ & Hstatus & _ & Hdata).
  assert (is_Some (fault b SELECT "profiles")) as Hdown by (eexists; reflexivity).
  destruct (Hfault Hdown) as [_ Hnone].
  rewrite Hnone in Hres, Hdata.
  split_and!; [reflexivity | exact Hdown | exact Hres | exact Hstatus | exact Hdata].
Defined.

Lemma C3_update_profile_witness :
  let b := Sample.backend (Some Sample.ana) Sample.online in
  let values : ProfileObj := {["username" := Some "bia"]} in
  auth_user b = Some Sample.ana
  ∧ update_refusal values "id" "u1" b = None
  ∧ fault b SELECT "profiles" = None
  ∧ filter (eq_filter "id" "u1") (profiles b) = [Sample.ana_row]
  ∧ values !! "id" = None
  ∧ (mutationFn values b).1 = Returned true
  ∧ query_data
      (profile_query
         (profile_fetch_settles (mutation_settles values mount b).1
            (mutation_settles values mount b).2).1)
    = val (patch values Sample.ana_row)
  ∧ patch values Sample.ana_row !! "username" = Some (Some "bia").
Proof.
  intros b values.
  assert (filter (eq_filter "id" "u1") (profiles b) = [Sample.ana_row]) as Hrow
    by (vm_compute; reflexivity).
  assert (update_refusal values "id" "u1" b = None) as Hok
    by (vm_compute; reflexivity).
  assert (values !! "id" = None) as Hid by (vm_compute; reflexivity).
  destruct (C3_update_profile values mount b) as (_ & _ & _ & _ & Hrefetch).
  destruct (Hrefetch Sample.ana Sample.ana_row eq_refl Hok eq_refl Hrow (or_introl Hid))
    as (Hres & _ & Hdata & Hread).
  split_and!; [reflexivity | exact Hok | reflexivity | exact Hrow | exact Hid
              | exact Hres | exact Hdata |].
  apply Hread. vm_compute. reflexivity.
Defined.

Lemma C9_delete_notifies_before_settlement_witness :
  let b := Sample.backend (Some Sample.ana) Sample.offline in
  in_flight mount = []
  ∧ (mutationFn {["avatar_url" := None]} b).1 = Thrown (Postgrest Sample.outage)
  ∧ toasts (handle MutationSettles (handleDeleteAvatar mount) b).1
      = [toast_avatar_removed]
  ∧ profiles (handle MutationSettles (handleDeleteAvatar mount) b).2 = profiles b.
Proof.
  intros b.
  assert ((mutationFn {["avatar_url" := None]} b).1 = Thrown (Postgrest Sample.outage))
    as Hfail by (vm_compute; reflexivity).
  destruct (C9_delete_notifies_before_settlement mount b) as (_ & _ & Havatar & _).
  destruct (Havatar (Postgrest Sample.outage) eq_refl Hfail) as (Htoasts & _ & _ & Hrows).
  split_and!; [reflexivity | exact Hfail | exact Htoasts | exact Hrows].
Defined.

Lemma C2_delete_shows_text_placeholder_witness :
  let st := Sample.dialog_open.1 in
  let b := Sample.dialog_open.2 in
  let w := run (st, b) [ClickExcluirFotoDePerfil; MutationSettles; ProfileFetchSettles] in
  avatar (render st) = Img "https://img.example/ana.png" "Avatar" "/placeholder.svg"
  ∧ isDeleteDialogOpen st = true
  ∧ in_flight st = []
  ∧ auth_user b = Some Sample.ana
  ∧ filter (eq_filter "id" "u1") (profiles b) = [Sample.ana_row]
  ∧ filter (eq_filter "id" "u1") (profiles w.2)
      = [<["avatar_url" := None]> Sample.ana_row]
  ∧ avatar (render w.1) = Placeholder "Sem foto de perfil".
Proof.
  intros st b w.
  assert (filter (eq_filter "id" "u1") (profiles b) = [Sample.ana_row]) as Hrow
    by (vm_compute; reflexivity).
  assert (isDeleteDialogOpen st = true) as Hopen by (vm_compute; reflexivity).
  assert (in_flight st = []) as Hidle by (vm_compute; reflexivity).
  destruct (C2_delete_shows_text_placeholder st) as (_ & _ & _ & _ & _ & Hrun).
  destruct (Hrun b Sample.ana Sample.ana_row Hopen Hidle eq_refl eq_refl eq_refl Hrow)
    as [[Hrows Hview] _].
  split_and!; [vm_compute; reflexivity | exact Hopen | exact Hidle | reflexivity
              | exact Hrow | exact Hrows | exact Hview].
Defined.

(** C2 as stated fails: after the avatar has been deleted and the profile
    refetched, the avatar_url is empty, yet the page shows no image
    element, hence not the placeholder image. *)
Lemma C2_placeholder_image_counterexample :
  let w := run Sample.dialog_open
             [ClickExcluirFotoDePerfil; MutationSettles; ProfileFetchSettles] in
  get_opt "avatar_url" (query_data (profile_query w.1)) = null
  ∧ avatar (render w.1) = Placeholder "Sem foto de perfil"
  ∧ ¬ shows_placeholder_image (avatar (render w.1)).
Proof.
  intros w. split_and!.
  - vm_compute. reflexivity.
  - vm_compute. reflexivity.
  - intros [loads Hshown]. vm_compute in Hshown. discriminate.
Qed.

Lemma C7_update_payloads_witness :
  let b := Sample.backend (Some Sample.ana) Sample.online in
  auth_user b = Some Sample.ana
  ∧ fault b SELECT "profiles" = None
  ∧ filter (eq_filter "id" "u1") (profiles b) = [Sample.ana_row]
  ∧ query_data (profile_query mount) ≠ val Sample.ana_row
  ∧ form (profile_fetch_settles mount b).1 = Sample.ana_row
  ∧ in_flight (handleSubmit mount) = [form mount].
Proof.
  intros b.
  assert (filter (eq_filter "id" "u1") (profiles b) = [Sample.ana_row]) as Hrow
    by (vm_compute; reflexivity).
  assert (query_data (profile_query mount) ≠ val Sample.ana_row) as Hnew
    by discriminate.
  destruct (C7_update_payloads mount) as (Hsubmit & _ & _ & _ & _ & _ & Hload & _).
  split_and!; [reflexivity | reflexivity | exact Hrow | exact Hnew | | exact Hsubmit].
  exact (Hload b Sample.ana Sample.ana_row eq_refl eq_refl Hrow Hnew).
Defined.

(** C7 as stated fails: the user loads the profile, opens the edit form,
    changes only the username and submits; the payload the row store
    receives carries the unchanged full_name as well. *)
Lemma C7_unchanged_fields_sent_counterexample :
  ¬ only_changed_fields_sent
      (mount, Sample.backend (Some Sample.ana) Sample.online)
      [ProfileFetchSettles; ClickEditarPerfil; TypeUsername "bia";
       SubmitForm; MutationSettles].
Proof.
  intros Honly.
  set (w := (mount, Sample.backend (Some Sample.ana) Sample.online)) in *.
  set (evs := [ProfileFetchSettles; ClickEditarPerfil; TypeUsername "bia";
               SubmitForm; MutationSettles]) in *.
  assert (∃ req, sent_during w evs !! 0%nat = Some req
                 ∧ req_values req !! "full_name" = Some (Some "Ana Lima"))
    as (req & Hsent & Hfull).
  { vm_compute. eexists. split; reflexivity. }
  assert ("full_name" ∉ changed_by_user evs) as Hkept.
  { unfold changed_by_user, evs. simpl. set_solver. }
  specialize (Honly req (list_elem_of_lookup_2 _ _ _ Hsent) "full_name" Hkept).
  congruence.
Qed.

End on_sample_data.

(** * Further properties of the bottom navigation bar *)

Section bottom_nav_runs.
Import BottomNav.

Lemma run_snoc (st : State) (evs : list Event) (ev : Event) :
  run st (evs ++ [ev]) = step (run st evs) ev.
Proof. unfold run. by rewrite foldl_app. Qed.

Lemma run_unmounted (st : State) (evs : list Event) :
  mounted st = false → run st evs = st.
Proof.
  intros Hm. induction evs as [|ev evs IH]; [reflexivity |].
  unfold run in *. simpl. unfold step at 2. by rewrite Hm.
Qed.

Lemma run_stays_mounted (st : State) (evs : list Event) :
  mounted st = true → Unmount ∉ evs → mounted (run st evs) = true.
Proof.
  revert st. induction evs as [|ev evs IH]; intros st Hm Hno; [done |].
  apply not_elem_of_cons in Hno as [Hev Hno].
  unfold run in *. simpl. apply IH; [| done].
  unfold step. rewrite Hm. by destruct ev.
Qed.

(** X1. Once the component has unmounted (its cleanup has unsubscribed),
    no later event changes the held session: neither a further auth
    notification nor the initial getSession promise resolving late. *)
Theorem X1_nav_unmount_is_final :
  ∀ (st : State) (evs : list Event),
    run (step st Unmount) evs = step st Unmount
    ∧ session (run (step st Unmount) evs) = session st.
Proof.
  intros st evs.
  assert (mounted (step st Unmount) = false) as Hm.
  { unfold step. destruct (mounted st) eqn:Hst; [reflexivity | exact Hst]. }
  rewrite run_unmounted by done. split; [reflexivity |].
  unfold step. by destruct (mounted st).
Qed.

(** X2. While the component is mounted, the held session is the one the
    latest callback delivered, whichever of the two sources it came from:
    the initial getSession promise resolving after an auth notification
    overwrites the newer session, and the profile link follows it. *)
Theorem X2_nav_latest_callback_wins :
  ∀ (pathname : string) (config : option SiteConfig) (st : State)
    (evs : list Event) (ev : Event) (s : option Session),
    mounted st = true →
    Unmount ∉ evs →
    delivered ev = Some s →
    session (run st (evs ++ [ev])) = s
    ∧ target_of "Eu" (render pathname config (run st (evs ++ [ev])))
        = Some (profile_link_to s).
Proof.
  intros pathname config st evs ev s Hm Hno Hev.
  assert (session (run st (evs ++ [ev])) = s) as Hs.
  { rewrite run_snoc. unfold step. rewrite run_stays_mounted by done.
    destruct ev; simpl in *; congruence. }
  split; [exact Hs |]. by rewrite profile_link_rendered, Hs.
Qed.

Lemma X2_nav_latest_callback_wins_witness :
  let evs := [AuthStateChange "SIGNED_IN" (Some Sample.session)] in
  mounted mount = true
  ∧ (Unmount ∉ evs)
  ∧ session (run mount (evs ++ [GetSessionResolved None])) = None
  ∧ target_of "Eu" (render "/" None (run mount (evs ++ [GetSessionResolved None])))
      = Some "/login".
Proof.
  intros evs.
  assert (Unmount ∉ evs) as Hno.
  { intros Hin. apply list_elem_of_singleton in Hin. discriminate. }
  destruct (X2_nav_latest_callback_wins "/" None mount evs (GetSessionResolved None)
              None eq_refl Hno eq_refl) as [Hs Ht].
  split_and!; [reflexivity | exact Hno | exact Hs | exact Ht].
Defined.

(** X3. When the site configuration is missing, or its icon and text
    colours are missing or empty, both links are drawn in #FFFFFF on every
    path, so the active link cannot be told from the inactive one; a colour
    given as the empty string counts as missing. *)
Theorem X3_nav_default_colours :
  ∀ (pathname : string) (config : option SiteConfig) (st : State),
    truthy (opt_field config bottom_nav_icon_color) = false →
    truthy (opt_field config bottom_nav_text_color) = false →
    Forall (λ l, link_color l = "#FFFFFF") (nav_links (render pathname config st)).
Proof.
  intros pathname config st Hicon Htext.
  assert (∀ v, truthy v = false → or_else v "#FFFFFF" = "#FFFFFF") as Hdefault.
  { intros [c|]; simpl; [| done]. by intros ->. }
  unfold render, iconColor, textColor. simpl.
  rewrite !Hdefault by done.
  repeat constructor; simpl; by repeat case_match.
Qed.

Lemma X3_nav_default_colours_witness :
  let config := Some {| bottom_nav_primary_color := Some "#000000";
                        bottom_nav_secondary_color := None;
                        bottom_nav_icon_color := Some "";
                        bottom_nav_text_color := None |} in
  truthy (opt_field config bottom_nav_icon_color) = false
  ∧ truthy (opt_field config bottom_nav_text_color) = false
  ∧ Forall (λ l, link_color l = "#FFFFFF") (nav_links (render "/perfil" config mount)).
Proof.
  intros config. split; [reflexivity |]. split; [reflexivity |].
  apply (X3_nav_default_colours "/perfil" config mount); reflexivity.
Defined.

End bottom_nav_runs.

(** * Further properties of the place cards *)

Section place_cards.
Import PlacesPage.

Lemma elem_of_when_truthy {E} (x : E) (v : option string) (f : string → E) :
  x ∈ when_truthy v f ↔ ∃ s, v = Some s ∧ s ≠ "" ∧ x = f s.
Proof.
  unfold when_truthy. destruct v as [s|].
  - destruct (truthy_string s) eqn:Hs.
    + apply truthy_string_spec in Hs. rewrite list_elem_of_singleton. naive_solver.
    + assert (¬ s ≠ "") by (rewrite <- truthy_string_spec; congruence).
      rewrite elem_of_nil. naive_solver.
  - rewrite elem_of_nil. naive_solver.
Qed.

Lemma strip_all_digits (s : string) : all_digits (strip_non_digits s) = true.
Proof.
  induction s as [|c s IH]; [reflexivity |]. simpl.
  destruct (is_digit c) eqn:Hc; [| exact IH]. simpl. by rewrite Hc, IH.
Qed.

Lemma strip_of_digits (s : string) : all_digits s = true → strip_non_digits s = s.
Proof.
  induction s as [|c s IH]; [reflexivity |]. simpl.
  intros [Hc Hs]%andb_prop. rewrite Hc. f_equal. by apply IH.
Qed.


Lemma strip_app (s t : string) :
  strip_non_digits (s +:+ t) = strip_non_digits s +:+ strip_non_digits t.
Proof.
  induction s as [|c s IH]; [reflexivity |]. simpl.
  destruct (is_digit c); simpl; by rewrite IH.
Qed.

Lemma strip_length (s : string) :
  (String.length (strip_non_digits s) ≤ String.length s)%nat.
Proof.
  induction s as [|c s IH]; [done |]. simpl.
  destruct (is_digit c); simpl; lia.
Qed.

(** X4. Removing the non-digits of a string leaves only decimal digits,
    never lengthens it, is idempotent, and distributes over
    concatenation. *)
Theorem X4_strip_non_digits_spec :
  ∀ (s t : string),
    all_digits (strip_non_digits s) = true
    ∧ (String.length (strip_non_digits s) ≤ String.length s)%nat
    ∧ strip_non_digits (strip_non_digits s) = strip_non_digits s
    ∧ strip_non_digits (s +:+ t) = strip_non_digits s +:+ strip_non_digits t.
Proof.
  intros s t. split_and!.
  - apply strip_all_digits.
  - apply strip_length.
  - apply strip_of_digits, strip_all_digits.
  - apply strip_app.
Qed.



Lemma icons_when_truthy (i : Icon) (v : option string) (h : string → string) :
  icon <$> when_truthy v (λ s, {| icon := i; href := h s |}) `sublist_of` [i].
Proof.
  unfold when_truthy. destruct v as [s|]; [| apply sublist_nil_l].
  destruct (truthy_string s); [done | apply sublist_nil_l].
Qed.

Lemma icons_social_links (sm : option Place.SocialMedia) :
  icon <$> social_links sm `sublist_of` [Facebook; Instagram].
Proof.
  destruct sm as [o|]; [| apply sublist_nil_l]. simpl. rewrite fmap_app.
  apply (sublist_app _ [Facebook] _ [Instagram]); apply icons_when_truthy.
Qed.

(** X6. The contact row of a card lays out its anchors in one fixed order
    (phone, whatsapp, website, facebook, instagram, maps), skipping those
    that are absent: no affordance appears twice, and a card has at most
    six. *)
Theorem X6_contacts_in_fixed_order :
  ∀ (p : Place.Row),
    icon <$> contacts (card p) `sublist_of` contact_order
    ∧ NoDup (icon <$> contacts (card p))
    ∧ (length (contacts (card p)) ≤ 6)%nat.
Proof.
  intros p.
  assert (icon <$> contacts (card p) `sublist_of` contact_order) as Hsub.
  { simpl. rewrite !fmap_app.
    apply (sublist_app _ [Phone] _ [MessageCircle; Globe; Facebook; Instagram; MapPin]);
      [apply icons_when_truthy |].
    apply (sublist_app _ [MessageCircle] _ [Globe; Facebook; Instagram; MapPin]);
      [apply icons_when_truthy |].
    apply (sublist_app _ [Globe] _ [Facebook; Instagram; MapPin]);
      [apply icons_when_truthy |].
    apply (sublist_app _ [Facebook; Instagram] _ [MapPin]);
      [apply icons_social_links | apply icons_when_truthy]. }
  split_and!.
  - exact Hsub.
  - eapply sublist_NoDup; [| exact Hsub].
    unfold contact_order. repeat (apply NoDup_cons; split; [set_solver |]).
    apply NoDup_nil_2.
  - apply sublist_length in Hsub. by rewrite length_fmap in Hsub.
Qed.

(** X7. The head of a card: the picture is rendered exactly when the image
    field is non-empty, with the place's name as its alternative text; the
    description exactly when it is non-empty; and each of the four detail
    rows (address, owner, opening hours, entrance fee) exactly when its
    field is non-empty, showing the field's text. A field holding the empty
    string is treated like a missing one. *)
Theorem X7_card_head :
  ∀ (p : Place.Row),
    title (card p) = Place.name p
    ∧ (∀ img, img ∈ picture (card p)
         ↔ ∃ url, Place.image p = Some url ∧ url ≠ ""
             ∧ img = {| src := url; alt := Place.name p |})
    ∧ (∀ d, d ∈ blurb (card p) ↔ Place.description p = Some d ∧ d ≠ "")
    ∧ (∀ i text,
         (i, text) ∈ details (card p)
         ↔ text ≠ ""
           ∧ ((i = MapPin ∧ Place.address p = Some text)
              ∨ (i = User2 ∧ Place.owner_name p = Some text)
              ∨ (i = Clock ∧ Place.opening_hours p = Some text)
              ∨ (i = Ticket ∧ Place.entrance_fee p = Some text))).
Proof.
  intros p. split_and!.
  - reflexivity.
  - intros img. simpl. apply elem_of_when_truthy.
  - intros d. simpl. rewrite elem_of_when_truthy. naive_solver.
  - intros i text. simpl. rewrite !elem_of_app, !elem_of_when_truthy. naive_solver.
Qed.

End place_cards.

Section place_keys.
Context `{Collation}.
Import PlacesPage.

Lemma keys_of_cards (ps : list Place.Row) :
  key <$> (card <$> ps) = Place.id <$> ps.
Proof. rewrite <- list_fmap_compose. reflexivity. Qed.

(** X8. Once the places have been fetched, the grid has one card per row
    of the table, keyed by the row's id: the keys are the ids of the table,
    and they are pairwise distinct whenever the ids are. *)
Theorem X8_card_keys :
  ∀ (b : Backend),
    fault b SELECT "places" = None →
    NoDup (Place.id <$> places b) →
    ∃ cs, page_after_fetch b = Grid cs
      ∧ length cs = length (places b)
      ∧ key <$> cs ≡ₚ Place.id <$> places b
      ∧ NoDup (key <$> cs).
Proof.
  intros b Hf Hids.
  exists (card <$> merge_sort (asc (λ p, Some (Place.name p))) (places b)).
  assert (key <$> (card <$> merge_sort (asc (λ p, Some (Place.name p))) (places b))
          ≡ₚ Place.id <$> places b) as Hperm.
  { rewrite keys_of_cards. apply fmap_Permutation, merge_sort_Permutation. }
  split_and!.
  - unfold page_after_fetch, fetch.
    rewrite places_queryFn_run, places_response_ok by done. reflexivity.
  - rewrite length_fmap. apply Permutation_length, merge_sort_Permutation.
  - exact Hperm.
  - by rewrite Hperm.
Qed.

End place_keys.

Lemma X8_card_keys_witness :
  let b := Sample.backend None Sample.online in
  fault b SELECT "places" = None
  ∧ NoDup (Place.id <$> places b)
  ∧ ∃ cs, PlacesPage.page_after_fetch b = PlacesPage.Grid cs
      ∧ length cs = length (places b)
      ∧ PlacesPage.key <$> cs ≡ₚ Place.id <$> places b
      ∧ NoDup (PlacesPage.key <$> cs).
Proof.
  intros b.
  assert (NoDup (Place.id <$> places b)) as Hids.
  { simpl. repeat (apply NoDup_cons; split; [set_solver |]). apply NoDup_nil_2. }
  split; [reflexivity |]. split; [exact Hids |].
  apply (@X8_card_keys byte_collation b); [reflexivity | exact Hids].
Defined.

(** * Further properties of the Profile page *)

Section profile_runs.
Import ProfilePage.

Lemma run_invariant (P : State * Backend → Prop) :
  (∀ w ev, P w → P (step w ev)) →
  ∀ w evs, P w → P (run w evs).
Proof.
  intros Hstep w evs. revert w. unfold run.
  induction evs as [|ev evs IH]; intros w Hw; simpl; [done |].
  apply IH, Hstep, Hw.
Qed.

(** A settled fetch replaces the query and may reset the form; nothing
    else of the component changes, and the backend is only read. *)
Lemma profile_fetch_settles_shape st b :
  ∃ f, profile_fetch_settles st b
       = (set_form f (set_profile_query (fetch queryFn (profile_query st) b).1 st), b)
     ∧ (f = form st
        ∨ query_data (fetch queryFn (profile_query st) b).1 = val f
          ∧ query_data (profile_query st) ≠ val f).
Proof.
  assert ((fetch queryFn (profile_query st) b).2 = b) as Hb.
  { unfold fetch. destruct (auth_user b) as [u|] eqn:Hu.
    - by rewrite (profile_queryFn_signed_in b u Hu).
    - by rewrite (profile_queryFn_signed_out b Hu). }
  unfold profile_fetch_settles.
  destruct (fetch queryFn (profile_query st) b) as [q b'] eqn:Hq. simpl in *. subst b'.
  unfold profile_effect. simpl.
  destruct (query_data q) as [| |p] eqn:Hd.
  - exists (form st). auto.
  - exists (form st). auto.
  - destruct (decide _) as [Heq|Hne].
    + exists (form st). auto.
    + exists p. split; [reflexivity |]. right. split; [done | congruence].
Qed.

Lemma mutation_settles_shape values st b :
  ((mutationFn values b).1 = Returned true
   ∧ (mutation_settles values st b).1 = onSuccess st)
  ∨ (∃ x, (mutationFn values b).1 = Thrown x
        ∧ (mutation_settles values st b).1 = set_mutation_error (Some x) st).
Proof.
  destruct (mutationFn values b).1 as [ok|x] eqn:Hres.
  - left. rewrite (mutationFn_returns_true _ _ _ Hres) in *.
    eauto using mutation_settles_returned.
  - right. exists x. eauto using mutation_settles_thrown.
Qed.

Lemma handle_preview_mode ev st b :
  isPreviewMode (handle ev st b).1
  = match ev with
    | ClickEditarPerfil => false
    | _ => isPreviewMode st
    end.
Proof.
  destruct ev; try reflexivity.
  - simpl. by destruct (profile_fetch_settles_shape st b) as (f & -> & _).
  - simpl. destruct (in_flight st) as [|values rest]; [reflexivity |].
    by destruct (mutation_settles_shape values (set_in_flight rest st) b)
      as [[_ ->]|(x & _ & ->)].
Qed.

Lemma handle_delete_dialog ev st b :
  isDeleteDialogOpen (handle ev st b).1
  = match ev with
    | ClickTrash => true
    | ClickExcluirFotoDePerfil | ClickExcluirFotoDeCapa => false
    | DeleteDialogOpenChange open => open
    | _ => isDeleteDialogOpen st
    end.
Proof.
  destruct ev; try reflexivity.
  - simpl. by destruct (profile_fetch_settles_shape st b) as (f & -> & _).
  - simpl. destruct (in_flight st) as [|values rest]; [reflexivity |].
    by destruct (mutation_settles_shape values (set_in_flight rest st) b)
      as [[_ ->]|(x & _ & ->)].
Qed.

(** X9. Edit mode is permanent: once the page has left preview mode, no
    sequence of events (clicks, typing, dialogs, fetches and mutations
    settling in any order) brings it back. *)
Theorem X9_edit_mode_is_permanent :
  ∀ (w : State * Backend) (evs : list Event),
    isPreviewMode w.1 = false →
    isPreviewMode (run w evs).1 = false
    ∧ edit_form (render (run w evs).1) = true.
Proof.
  intros w evs Hw.
  assert (isPreviewMode (run w evs).1 = false) as Hrun.
  { apply (run_invariant (λ w, isPreviewMode w.1 = false)); [| done].
    clear. intros [st b] ev Hst. unfold step. simpl in *.
    destruct (enabled st ev); [| done].
    rewrite handle_preview_mode. by destruct ev. }
  split; [exact Hrun |]. simpl. by rewrite Hrun.
Qed.

Lemma X9_edit_mode_is_permanent_witness :
  let w := step (mount, Sample.backend (Some Sample.ana) Sample.online) ClickEditarPerfil in
  let evs := [ProfileFetchSettles; TypeUsername "bia"; SubmitForm; MutationSettles;
              ProfileFetchSettles; ClickTrash; DeleteDialogOpenChange false] in
  isPreviewMode w.1 = false
  ∧ isPreviewMode (run w evs).1 = false
  ∧ edit_form (render (run w evs).1) = true.
Proof.
  intros w evs. split; [reflexivity |].
  apply (X9_edit_mode_is_permanent w evs). reflexivity.
Defined.

(** X10. The delete dialog is only ever open in edit mode. On a page that
    is still in preview mode, whatever happened since it was mounted, the
    delete dialog is closed, so neither delete handler can run, and the
    edit form cannot be submitted. *)
Theorem X10_preview_mode_cannot_delete :
  ∀ (b : Backend) (evs : list Event),
    isPreviewMode (run (mount, b) evs).1 = true →
    isDeleteDialogOpen (run (mount, b) evs).1 = false
    ∧ enabled (run (mount, b) evs).1 ClickExcluirFotoDePerfil = false
    ∧ enabled (run (mount, b) evs).1 ClickExcluirFotoDeCapa = false
    ∧ enabled (run (mount, b) evs).1 SubmitForm = false.
Proof.
  intros b evs Hprev.
  assert (isPreviewMode (run (mount, b) evs).1 = true →
          isDeleteDialogOpen (run (mount, b) evs).1 = false) as Hclosed.
  { apply (run_invariant
             (λ w, isPreviewMode w.1 = true → isDeleteDialogOpen w.1 = false));
      [| done].
    clear. intros [st b] ev Hst. unfold step. simpl in *.
    destruct (enabled st ev) eqn:Hen; [| done].
    rewrite handle_preview_mode, handle_delete_dialog.
    destruct ev; simpl in *; try done.
    - intros Hp. rewrite Hp in Hen. discriminate.
    - intros Hp. specialize (Hst Hp). congruence. }
  specialize (Hclosed Hprev). simpl. rewrite Hclosed, Hprev. done.
Qed.

Lemma X10_preview_mode_cannot_delete_witness :
  let b := Sample.backend (Some Sample.ana) Sample.online in
  let evs := [ProfileFetchSettles; ClickTrash; ClickEditarFoto;
              ClickExcluirFotoDePerfil; PhotoDialogOpenChange false] in
  isPreviewMode (run (mount, b) evs).1 = true
  ∧ isDeleteDialogOpen (run (mount, b) evs).1 = false
  ∧ enabled (run (mount, b) evs).1 ClickExcluirFotoDePerfil = false
  ∧ enabled (run (mount, b) evs).1 ClickExcluirFotoDeCapa = false
  ∧ enabled (run (mount, b) evs).1 SubmitForm = false.
Proof.
  intros b evs.
  assert (isPreviewMode (run (mount, b) evs).1 = true) as Hprev
    by (vm_compute; reflexivity).
  split; [exact Hprev |]. apply (X10_preview_mode_cannot_delete b evs Hprev).
Defined.

Lemma handle_backend ev st b :
  (handle ev st b).2 = b
  ∨ ∃ values rest,
      ev = MutationSettles ∧ in_flight st = values :: rest
      ∧ (handle ev st b).2 = (mutationFn values b).2.
Proof.
  destruct ev; try (by left).
  - left. simpl. by destruct (profile_fetch_settles_shape st b) as (f & -> & _).
  - simpl. destruct (in_flight st) as [|values rest]; [by left |].
    right. exists values, rest. by rewrite mutation_settles_backend.
Qed.

Lemma handle_query_data ev st b :
  query_data (profile_query (handle ev st b).1)
  = match ev with
    | ProfileFetchSettles => query_data (fetch queryFn (profile_query st) b).1
    | _ => query_data (profile_query st)
    end.
Proof.
  destruct ev; try reflexivity.
  - simpl. by destruct (profile_fetch_settles_shape st b) as (f & -> & _).
  - simpl. destruct (in_flight st) as [|values rest]; [reflexivity |].
    by destruct (mutation_settles_shape values (set_in_flight rest st) b)
      as [[_ ->]|(x & _ & ->)].
Qed.

Lemma handle_toasts ev st b :
  toasts (handle ev st b).1 = toasts st
  ∨ (ev = ClickExcluirFotoDePerfil
     ∧ toasts (handle ev st b).1 = toasts st ++ [toast_avatar_removed])
  ∨ (ev = ClickExcluirFotoDeCapa
     ∧ toasts (handle ev st b).1 = toasts st ++ [toast_cover_removed])
  ∨ (∃ values rest,
       ev = MutationSettles ∧ in_flight st = values :: rest
       ∧ (mutationFn values b).1 = Returned true
       ∧ toasts (handle ev st b).1 = toasts st ++ [toast_updated]).
Proof.
  destruct ev; try (by left).
  - left. simpl. by destruct (profile_fetch_settles_shape st b) as (f & -> & _).
  - simpl. destruct (in_flight st) as [|values rest]; [by left |].
    destruct (mutation_settles_shape values (set_in_flight rest st) b)
      as [[Hok ->]|(x & _ & ->)]; [| by left].
    right; right; right. by exists values, rest.
  - right; left. done.
  - right; right; left. done.
Qed.

(** X11. For a visitor who is not signed in, nothing the Profile page does
    reaches the row store or brings up a profile: after any sequence of
    events the backend is exactly as it was, the query's data is what it
    was, and the "Perfil atualizado" notification is never emitted. *)
Theorem X11_signed_out_changes_nothing :
  ∀ (st : State) (b : Backend) (evs : list Event),
    auth_user b = None →
    (run (st, b) evs).2 = b
    ∧ query_data (profile_query (run (st, b) evs).1) = query_data (profile_query st)
    ∧ (toast_updated ∉ toasts st → toast_updated ∉ toasts (run (st, b) evs).1).
Proof.
  intros st b evs Hout.
  apply (run_invariant
           (λ w, w.2 = b
                 ∧ query_data (profile_query w.1) = query_data (profile_query st)
                 ∧ (toast_updated ∉ toasts st → toast_updated ∉ toasts w.1)));
    [| done].
  clear evs. intros [st1 b1] ev (Hb & Hdata & Htoasts). simpl in *. subst b1.
  unfold step. simpl. destruct (enabled st1 ev); [| done].
  split_and!.
  - destruct (handle_backend ev st1 b) as [->|(values & rest & _ & _ & ->)]; [done |].
    by rewrite mutationFn_signed_out.
  - rewrite handle_query_data. destruct ev; try done.
    unfold fetch. by rewrite profile_queryFn_signed_out.
  - intros Hno. specialize (Htoasts Hno).
    destruct (handle_toasts ev st1 b)
      as [->|[[_ ->]|[[_ ->]|(values & rest & _ & _ & Hok & _)]]]; [done | | |].
    + rewrite not_elem_of_app, list_elem_of_singleton. split; [done | discriminate].
    + rewrite not_elem_of_app, list_elem_of_singleton. split; [done | discriminate].
    + rewrite mutationFn_signed_out in Hok by done. discriminate.
Qed.

Lemma X11_signed_out_changes_nothing_witness :
  let b := Sample.backend None Sample.online in
  let evs := [ProfileFetchSettles; ClickEditarPerfil; TypeUsername "bia"; SubmitForm;
              MutationSettles; ClickTrash; ClickExcluirFotoDePerfil; MutationSettles] in
  auth_user b = None
  ∧ (run (mount, b) evs).2 = b
  ∧ query_data (profile_query (run (mount, b) evs).1) = undefined
  ∧ (toast_updated ∉ toasts (run (mount, b) evs).1).
Proof.
  intros b evs.
  destruct (X11_signed_out_changes_nothing mount b evs eq_refl) as (Hb & Hdata & Htoasts).
  split_and!; [reflexivity | exact Hb | exact Hdata |].
  apply Htoasts. apply not_elem_of_nil.
Defined.

Lemma mutationFn_backend_signed_in values b u :
  auth_user b = Some u →
  auth_user (mutationFn values b).2 = Some u
  ∧ fault (mutationFn values b).2 = fault b
  ∧ places (mutationFn values b).2 = places b
  ∧ received (mutationFn values b).2 = received b ++ [update_request values u]
  ∧ (profiles (mutationFn values b).2 = profiles b
     ∨ profiles (mutationFn values b).2
       = update_rows values "id" (user_id u) (profiles b)).
Proof.
  intros Hu.
  destruct (mutationFn_settlement values b)
    as [[? _]|[(u' & e & Hu' & _ & ->)|(u' & Hu' & _ & ->)]];
    [congruence | |]; assert (u' = u) as -> by congruence; simpl; auto 10.
Qed.

Lemma update_rows_other values uid rows (i : nat) (r : ProfileObj) :
  rows !! i = Some r →
  r !! "id" ≠ Some (Some uid) →
  update_rows values "id" uid rows !! i = Some r.
Proof.
  intros Hr Hid. rewrite (update_rows_lookup _ _ _ _ _ r Hr).
  by destruct (decide _).
Qed.

(** X12. For a signed-in user, whatever sequence of events the Profile
    page goes through, every update request it sends is addressed to the
    profiles collection and filtered on that user's id; the rows of other
    users stay as they were, the number of profile rows does not change,
    and the places table is not touched. *)
Theorem X12_other_rows_untouched :
  ∀ (st : State) (b : Backend) (u : User) (evs : list Event),
    auth_user b = Some u →
    (∀ req, req ∈ sent_during (st, b) evs →
       req_table req = "profiles" ∧ req_col req = "id" ∧ req_val req = user_id u)
    ∧ (∀ (i : nat) (r : ProfileObj),
         profiles b !! i = Some r →
         r !! "id" ≠ Some (Some (user_id u)) →
         profiles (run (st, b) evs).2 !! i = Some r)
    ∧ length (profiles (run (st, b) evs).2) = length (profiles b)
    ∧ places (run (st, b) evs).2 = places b.
Proof.
  intros st b u evs Hu.
  assert (auth_user (run (st, b) evs).2 = Some u
          ∧ (∃ reqs, received (run (st, b) evs).2 = received b ++ reqs
               ∧ Forall (λ req, req = update_request (req_values req) u) reqs)
          ∧ (∀ (i : nat) (r : ProfileObj),
               profiles b !! i = Some r →
               r !! "id" ≠ Some (Some (user_id u)) →
               profiles (run (st, b) evs).2 !! i = Some r)
          ∧ length (profiles (run (st, b) evs).2) = length (profiles b)
          ∧ places (run (st, b) evs).2 = places b) as (_ & Hreqs & Hrows & Hlen & Hplaces).
  { apply (run_invariant
             (λ w, auth_user w.2 = Some u
                   ∧ (∃ reqs, received w.2 = received b ++ reqs
                        ∧ Forall (λ req, req = update_request (req_values req) u) reqs)
                   ∧ (∀ (i : nat) (r : ProfileObj),
                        profiles b !! i = Some r →
                        r !! "id" ≠ Some (Some (user_id u)) →
                        profiles w.2 !! i = Some r)
                   ∧ length (profiles w.2) = length (profiles b)
                   ∧ places w.2 = places b)).
    - clear evs. intros [st1 b1] ev (Hu1 & (reqs & Hrec & Hreqs) & Hrows & Hlen & Hpl).
      simpl in *. unfold step. simpl.
      destruct (enabled st1 ev); [| by eauto 10].
      destruct (handle_backend ev st1 b1) as [->|(values & rest & _ & _ & ->)];
        [by eauto 10 |].
      destruct (mutationFn_backend_signed_in values b1 u Hu1)
        as (Hu2 & _ & Hpl2 & Hrec2 & Hrows2).
      split_and!.
      + exact Hu2.
      + exists (reqs ++ [update_request values u]). split.
        * by rewrite Hrec2, Hrec, (assoc_L (++)).
        * apply Forall_app. split; [done |]. by repeat constructor.
      + intros i r Hr Hid. specialize (Hrows i r Hr Hid).
        destruct Hrows2 as [->| ->]; [done |]. by apply update_rows_other.
      + destruct Hrows2 as [->| ->]; [done |].
        unfold update_rows. by rewrite length_fmap.
      + congruence.
    - split_and!; try done. exists []. split; [by rewrite app_nil_r | constructor]. }
  split_and!; try done.
  intros req Hreq. unfold sent_during in Hreq. simpl in Hreq.
  destruct Hreqs as (reqs & Hrec & Hreqs). rewrite Hrec, drop_app_length in Hreq.
  rewrite Forall_forall in Hreqs. rewrite (Hreqs req Hreq). done.
Qed.

Lemma X12_other_rows_untouched_witness :
  let b := Sample.backend (Some Sample.ana) Sample.online in
  let evs := [ProfileFetchSettles; ClickEditarPerfil; TypeUsername "bia"; SubmitForm;
              MutationSettles; ProfileFetchSettles] in
  auth_user b = Some Sample.ana
  ∧ profiles b !! 0%nat = Some Sample.rui_row
  ∧ Sample.rui_row !! "id" ≠ Some (Some "u1")
  ∧ profiles (run (mount, b) evs).2 !! 0%nat = Some Sample.rui_row
  ∧ length (profiles (run (mount, b) evs).2) = 2%nat.
Proof.
  intros b evs.
  assert (Sample.rui_row !! "id" ≠ Some (Some "u1")) as Hother
    by (vm_compute; discriminate).
  destruct (X12_other_rows_untouched mount b Sample.ana evs eq_refl)
    as (_ & Hrows & Hlen & _).
  split_and!; [reflexivity | reflexivity | exact Hother | | exact Hlen].
  exact (Hrows 0%nat Sample.rui_row eq_refl Hother).
Defined.

Lemma fetched_row_id b u (q : Query ProfileObj) (p : ProfileObj) :
  auth_user b = Some u →
  (query_data q = val p → p !! "id" = Some (Some (user_id u))) →
  query_data (fetch queryFn q b).1 = val p →
  p !! "id" = Some (Some (user_id u)).
Proof.
  intros Hu Hold. unfold fetch. rewrite (profile_queryFn_signed_in b u Hu). simpl.
  unfold profiles_single_response.
  destruct (fault b SELECT "profiles"); simpl; [discriminate |].
  destruct (filter _ _) as [|r [|r' rows]] eqn:Hrows; simpl; try discriminate.
  intros [= <-].
  assert (r ∈ filter (eq_filter "id" (user_id u)) (profiles b)) as Hin
    by (rewrite Hrows; apply list_elem_of_here).
  by apply list_elem_of_filter in Hin as [Hid _].
Qed.

Lemma keeps_id_insert uid (k : string) (x : option string) (values : ProfileObj) :
  k ≠ "id" → keeps_id uid values → keeps_id uid (<[k := x]> values).
Proof. unfold keeps_id. intros Hk. by rewrite lookup_insert_ne. Qed.

Lemma keeps_id_photos uid (a c : js string) :
  keeps_id uid (object [("avatar_url", a); ("cover_url", c)]).
Proof. left. rewrite object_photos_lookup. by repeat case_decide. Qed.

Lemma handle_id_safe ev st b u :
  auth_user b = Some u →
  id_safe (user_id u) st →
  id_safe (user_id u) (handle ev st b).1.
Proof.
  intros Hu (Hform & Hflight & Hdata). unfold id_safe.
  destruct ev; simpl; try (by split_and!).
  - destruct (profile_fetch_settles_shape st b) as (f & -> & Hf). simpl.
    split_and!; [| done | eauto using fetched_row_id].
    destruct Hf as [->|[Hf _]]; [done |]. right. eauto using fetched_row_id.
  - destruct (in_flight st) as [|values rest] eqn:Hq.
    { simpl. rewrite Hq. by split_and!. }
    apply Forall_cons in Hflight as [_ Hrest].
    by destruct (mutation_settles_shape values (set_in_flight rest st) b)
      as [[_ ->]|(x & _ & ->)].
  - split_and!; [by apply keeps_id_insert | done | done].
  - split_and!; [by apply keeps_id_insert | done | done].
  - split_and!; [by apply keeps_id_insert | done | done].
  - split_and!; [by apply keeps_id_insert | done | done].
  - split_and!; [done | | done]. apply Forall_app. split; [done |]. by constructor.
  - split_and!; [done | | done]. apply Forall_app. split; [done |].
    constructor; [apply keeps_id_photos | constructor].
  - split_and!; [by apply keeps_id_insert | | done].
    apply Forall_app. split; [done |]. constructor; [by left | constructor].
  - split_and!; [by apply keeps_id_insert | | done].
    apply Forall_app. split; [done |]. constructor; [by left | constructor].
Qed.

Lemma update_rows_ids values uid rows :
  keeps_id uid values → ids (update_rows values "id" uid rows) = ids rows.
Proof.
  intros Hkeep. unfold ids, update_rows. rewrite <- list_fmap_compose.
  apply list_fmap_ext. intros i r _. simpl.
  destruct (decide (eq_filter "id" uid r)) as [Hr|]; [| done].
  destruct Hkeep as [Hk|Hk].
  - by rewrite patch_lookup_unset.
  - rewrite (patch_lookup_set _ _ _ _ Hk). by rewrite Hr.
Qed.

(** X13. From the moment the page is mounted for a signed-in user, no
    sequence of events makes it rewrite the id of any profile row: every
    payload it sends either has no id key or repeats the user's own id
    (never null), and the id column of the table stays, row by row, what
    it was. *)
Theorem X13_row_ids_never_change :
  ∀ (b : Backend) (u : User) (evs : list Event),
    auth_user b = Some u →
    ids (profiles (run (mount, b) evs).2) = ids (profiles b)
    ∧ (∀ req, req ∈ sent_during (mount, b) evs →
         keeps_id (user_id u) (req_values req)
         ∧ req_values req !! "id" ≠ Some None)
    ∧ id_safe (user_id u) (run (mount, b) evs).1.
Proof.
  intros b u evs Hu.
  assert (auth_user (run (mount, b) evs).2 = Some u
          ∧ id_safe (user_id u) (run (mount, b) evs).1
          ∧ ids (profiles (run (mount, b) evs).2) = ids (profiles b)
          ∧ ∃ reqs, received (run (mount, b) evs).2 = received b ++ reqs
              ∧ Forall (λ req, keeps_id (user_id u) (req_values req)) reqs)
    as (_ & Hsafe & Hids & reqs & Hrec & Hreqs).
  { apply (run_invariant
             (λ w, auth_user w.2 = Some u
                   ∧ id_safe (user_id u) w.1
                   ∧ ids (profiles w.2) = ids (profiles b)
                   ∧ ∃ reqs, received w.2 = received b ++ reqs
                       ∧ Forall (λ req, keeps_id (user_id u) (req_values req)) reqs)).
    - clear evs. intros [st1 b1] ev (Hu1 & Hsafe & Hids & reqs & Hrec & Hreqs).
      simpl in *. unfold step. simpl.
      destruct (enabled st1 ev); [| by eauto 10].
      split_and!; [| by apply handle_id_safe | |];
        destruct (handle_backend ev st1 b1)
          as [->|(values & rest & _ & Hq & ->)]; try (by eauto);
        destruct (mutationFn_backend_signed_in values b1 u Hu1)
          as (Hu2 & _ & _ & Hrec2 & Hrows2);
        assert (keeps_id (user_id u) values) as Hkeep
          by (destruct Hsafe as (_ & Hflight & _); rewrite Hq in Hflight;
              by apply Forall_cons in Hflight as [? _]).
      + exact Hu2.
      + destruct Hrows2 as [->| ->]; [done |]. by rewrite update_rows_ids.
      + exists (reqs ++ [update_request values u]). split.
        * by rewrite Hrec2, Hrec, (assoc_L (++)).
        * apply Forall_app. split; [done |]. constructor; [exact Hkeep | constructor].
    - split_and!; [done | | done |].
      + split_and!; [by left | constructor | discriminate].
      + exists []. split; [by rewrite app_nil_r | constructor]. }
  split_and!; [done | | done].
  intros req Hreq. unfold sent_during in Hreq. simpl in Hreq.
  rewrite Hrec, drop_app_length in Hreq.
  rewrite Forall_forall in Hreqs. specialize (Hreqs req Hreq).
  split; [done |]. destruct Hreqs as [Hk|Hk]; rewrite Hk; discriminate.
Qed.

Lemma X13_row_ids_never_change_witness :
  let b := Sample.backend (Some Sample.ana) Sample.online in
  let evs := [ProfileFetchSettles; ClickEditarPerfil; TypeUsername "bia"; SubmitForm;
              MutationSettles; ProfileFetchSettles] in
  auth_user b = Some Sample.ana
  ∧ ids (profiles (run (mount, b) evs).2) = [Some (Some "u2"); Some (Some "u1")]
  ∧ (profiles (run (mount, b) evs).2 !! 1%nat)
      ≫= (.!! "username") = Some (Some "bia").
Proof.
  intros b evs.
  destruct (X13_row_ids_never_change b Sample.ana evs eq_refl) as (Hids & _ & _).
  split_and!; [reflexivity | exact Hids | vm_compute; reflexivity].
Defined.

(** X14. A delete that fails is not rolled back in the form. After
    handleDeleteAvatar has run and its mutation has thrown, the stored rows
    are unchanged but the form still holds null for avatar_url, so the next
    submission of the edit form, and the next save of the photo dialog,
    carry avatar_url = null; once such a submission is accepted, the
    user's row loses its avatar. *)
Theorem X14_failed_delete_stays_in_form :
  ∀ (st : State) (b : Backend) (x : Exn),
    in_flight st = [] →
    (mutationFn {["avatar_url" := None]} b).1 = Thrown x →
    let st' := (handle MutationSettles (handleDeleteAvatar st) b).1 in
    profiles (handle MutationSettles (handleDeleteAvatar st) b).2 = profiles b
    ∧ form st' !! "avatar_url" = Some None
    ∧ (∃ v, in_flight (handleSubmit st') = [v] ∧ v !! "avatar_url" = Some None)
    ∧ (∃ v, in_flight (handleSavePhotos st') = [v] ∧ v !! "avatar_url" = Some None)
    ∧ ∀ (v : ProfileObj) (b2 : Backend) (u : User) (i : nat) (r : ProfileObj),
        v !! "avatar_url" = Some None →
        auth_user b2 = Some u →
        update_refusal v "id" (user_id u) b2 = None →
        profiles b2 !! i = Some r →
        r !! "id" = Some (Some (user_id u)) →
        ∃ r', profiles (mutationFn v b2).2 !! i = Some r'
              ∧ r' !! "avatar_url" = Some None.
Proof.
  intros st b x Hq Hx st'.
  assert (st' = set_mutation_error (Some x)
                  (set_in_flight [] (handleDeleteAvatar st))) as Hst'.
  { subst st'. simpl. rewrite Hq. simpl.
    by rewrite (mutation_settles_thrown _ _ _ x Hx). }
  assert (form st' !! "avatar_url" = Some None) as Hform.
  { rewrite Hst'. simpl. apply lookup_insert_eq. }
  split_and!.
  - simpl. rewrite Hq. simpl. rewrite mutation_settles_backend.
    eauto using mutationFn_thrown_keeps_rows.
  - exact Hform.
  - exists (form st'). split; [| exact Hform]. by rewrite Hst'.
  - exists (object [("avatar_url", form_getValue "avatar_url" st');
                    ("cover_url", form_getValue "cover_url" st')]).
    split; [by rewrite Hst' |].
    rewrite object_photos_lookup. case_decide; [| done].
    by rewrite form_getValue_lookup.
  - intros v b2 u i r Hv Hu Hok Hr Hid.
    rewrite (mutationFn_accepted v b2 u Hu Hok). simpl.
    rewrite (update_rows_lookup _ _ _ _ _ r Hr).
    destruct (decide _); [| done].
    eexists. split; [reflexivity |]. by apply patch_lookup_set.
Qed.

Lemma X14_failed_delete_stays_in_form_witness :
  let loaded := (run (mount, Sample.backend (Some Sample.ana) Sample.online)
                   [ProfileFetchSettles]).1 in
  let down := Sample.backend (Some Sample.ana) Sample.offline in
  let up := Sample.backend (Some Sample.ana) Sample.online in
  let st' := (handle MutationSettles (handleDeleteAvatar loaded) down).1 in
  in_flight loaded = []
  ∧ (mutationFn {["avatar_url" := None]} down).1 = Thrown (Postgrest Sample.outage)
  ∧ profiles (handle MutationSettles (handleDeleteAvatar loaded) down).2 = profiles down
  ∧ update_refusal (form st') "id" "u1" up = None
  ∧ ∃ r', profiles (mutationFn (form st') up).2 !! 1%nat = Some r'
          ∧ r' !! "avatar_url" = Some None.
Proof.
  intros loaded down up st'.
  assert ((mutationFn {["avatar_url" := None]} down).1 = Thrown (Postgrest Sample.outage))
    as Hfail by (vm_compute; reflexivity).
  assert (update_refusal (form st') "id" "u1" up = None) as Hok
    by (vm_compute; reflexivity).
  destruct (X14_failed_delete_stays_in_form loaded down (Postgrest Sample.outage)
              eq_refl Hfail) as (Hrows & Hform & _ & _ & Hlater).
  split_and!; [reflexivity | exact Hfail | exact Hrows | exact Hok |].
  apply (Hlater (form st') up Sample.ana 1%nat Sample.ana_row Hform eq_refl Hok);
    vm_compute; reflexivity.
Defined.

(** X15. A link typed into the photo dialog and saved comes back on the
    page: once the update is accepted and the profile refetched, the
    user's row holds exactly the typed text as avatar_url, the dialog is
    closed, and the avatar is an image of that link, or the text
    placeholder when the typed text was empty. *)
Theorem X15_photo_save_round_trip :
  ∀ (st : State) (b : Backend) (u : User) (r : ProfileObj) (text : string),
    isPhotoDialogOpen st = true →
    in_flight st = [] →
    auth_user b = Some u →
    fault b UPDATE "profiles" = None →
    fault b SELECT "profiles" = None →
    filter (eq_filter "id" (user_id u)) (profiles b) = [r] →
    let w := run (st, b) [TypeAvatarLink text; ClickSalvarAlteracoes;
                          MutationSettles; ProfileFetchSettles] in
    (∃ row, filter (eq_filter "id" (user_id u)) (profiles w.2) = [row]
            ∧ row !! "avatar_url" = Some (Some text)
            ∧ query_data (profile_query w.1) = val row)
    ∧ isPhotoDialogOpen w.1 = false
    ∧ (text = "" → avatar (render w.1) = Placeholder "Sem foto de perfil")
    ∧ (text ≠ "" → avatar (render w.1) = Img text "Avatar" defaultAvatarImage).
Proof.
  intros st b u r text Hopen Hq Hu Hupd Hsel Hr w.
  set (st1 := form_setValue "avatar_url" (Some text) st).
  set (values := object [("avatar_url", form_getValue "avatar_url" st1);
                         ("cover_url", form_getValue "cover_url" st1)]).
  assert (values !! "id" = None) as Hid.
  { unfold values. rewrite object_photos_lookup. by repeat case_decide. }
  assert (values !! "avatar_url" = Some (Some text)) as Havatar.
  { unfold values. rewrite object_photos_lookup. case_decide; [| done].
    rewrite form_getValue_lookup. apply lookup_insert_eq. }
  destruct (refetch_reflects_update values (set_in_flight [] (handleSavePhotos st1)) b u r)
    as (Hfetching & Hrows & Hdata); try done.
  { apply update_accepts; [done | by rewrite Hid]. }
  { by left. }
  assert (w = profile_fetch_settles
                (mutation_settles values (set_in_flight [] (handleSavePhotos st1)) b).1
                (mutation_settles values (set_in_flight [] (handleSavePhotos st1)) b).2)
    as Hw.
  { subst w. unfold run. simpl.
    assert (step (st, b) (TypeAvatarLink text) = (st1, b)) as ->
      by (unfold step; simpl; by rewrite Hopen).
    assert (step (st1, b) ClickSalvarAlteracoes = (handleSavePhotos st1, b)) as ->
      by (unfold step; simpl; by rewrite Hopen).
    assert (step (handleSavePhotos st1, b) MutationSettles
            = mutation_settles values (set_in_flight [] (handleSavePhotos st1)) b) as ->
      by (unfold step; simpl; by rewrite Hq).
    unfold step, enabled. by rewrite Hfetching. }
  assert (avatar (render w.1)
          = picture (val text) "Avatar" defaultAvatarImage "Sem foto de perfil") as Hview.
  { rewrite Hw. unfold render. simpl. rewrite Hdata. simpl.
    by rewrite (patch_lookup_set _ _ _ _ Havatar). }
  split_and!.
  - exists (patch values r). rewrite Hw, profile_fetch_settles_backend.
    split_and!; [done | by apply patch_lookup_set | done].
  - rewrite Hw.
    destruct (profile_fetch_settles_shape
                (mutation_settles values (set_in_flight [] (handleSavePhotos st1)) b).1
                (mutation_settles values (set_in_flight [] (handleSavePhotos st1)) b).2)
      as (f & -> & _). simpl.
    rewrite (mutation_settles_returned values _ b true); [reflexivity |].
    rewrite (mutationFn_accepted values b u); [reflexivity | done |].
    apply update_accepts; [done | by rewrite Hid].
  - intros ->. by rewrite Hview.
  - intros Hne. rewrite Hview. simpl. apply truthy_string_spec in Hne. by rewrite Hne.
Qed.

Lemma X15_photo_save_round_trip_witness :
  let b := Sample.backend (Some Sample.ana) Sample.online in
  let st := (run (mount, b) [ProfileFetchSettles; ClickEditarFoto]).1 in
  let w := run (st, b) [TypeAvatarLink "https://img.example/new.png";
                        ClickSalvarAlteracoes; MutationSettles; ProfileFetchSettles] in
  isPhotoDialogOpen st = true
  ∧ in_flight st = []
  ∧ filter (eq_filter "id" "u1") (profiles b) = [Sample.ana_row]
  ∧ "https://img.example/new.png" ≠ ""
  ∧ isPhotoDialogOpen w.1 = false
  ∧ avatar (render w.1) = Img "https://img.example/new.png" "Avatar" defaultAvatarImage.
Proof.
  intros b st w.
  assert (isPhotoDialogOpen st = true) as Hopen by (vm_compute; reflexivity).
  assert (in_flight st = []) as Hidle by (vm_compute; reflexivity).
  assert (filter (eq_filter "id" "u1") (profiles b) = [Sample.ana_row]) as Hrow
    by (vm_compute; reflexivity).
  assert ("https://img.example/new.png" ≠ "") as Hne by discriminate.
  destruct (X15_photo_save_round_trip st b Sample.ana Sample.ana_row
              "https://img.example/new.png" Hopen Hidle eq_refl eq_refl eq_refl Hrow)
    as (_ & Hclosed & _ & Himg).
  split_and!; [exact Hopen | exact Hidle | exact Hrow | exact Hne | exact Hclosed |].
  exact (Himg Hne).
Defined.

(** X16. What a refetch does to the form depends on what it brings: when
    the fetched row equals the profile already on screen, the values in
    the form, unsaved edits included, are left alone; when it differs, the
    form is reset to the fetched row and unsaved edits are lost. *)
Theorem X16_refetch_and_unsaved_edits :
  ∀ (st : State) (b : Backend) (u : User) (r : ProfileObj),
    auth_user b = Some u →
    fault b SELECT "profiles" = None →
    filter (eq_filter "id" (user_id u)) (profiles b) = [r] →
    query_data (profile_query (profile_fetch_settles st b).1) = val r
    ∧ (query_data (profile_query st) = val r →
         form (profile_fetch_settles st b).1 = form st)
    ∧ (query_data (profile_query st) ≠ val r →
         form (profile_fetch_settles st b).1 = r).
Proof.
  intros st b u r Hu Hsel Hr.
  assert (query_data (fetch queryFn (profile_query st) b).1 = val r) as Hdata.
  { unfold fetch. rewrite (profile_queryFn_signed_in b u Hu).
    by rewrite (single_response_row b _ _ r). }
  destruct (profile_fetch_settles_shape st b) as (f & Hshape & Hf).
  rewrite Hshape. simpl. split_and!.
  - exact Hdata.
  - intros Hsame. destruct Hf as [->|[Hf Hnew]]; [done |]. congruence.
  - intros Hnew.
    rewrite <- (profile_fetch_resets_form st b u r) by done. by rewrite Hshape.
Qed.

Lemma X16_refetch_and_unsaved_edits_witness :
  let b := Sample.backend (Some Sample.ana) Sample.online in
  let st := (run (mount, b) [ProfileFetchSettles; ClickEditarPerfil;
                             TypeUsername "bia"]).1 in
  auth_user b = Some Sample.ana
  ∧ fault b SELECT "profiles" = None
  ∧ filter (eq_filter "id" "u1") (profiles b) = [Sample.ana_row]
  ∧ query_data (profile_query st) = val Sample.ana_row
  ∧ form (profile_fetch_settles st b).1 !! "username" = Some (Some "bia").
Proof.
  intros b st.
  assert (filter (eq_filter "id" "u1") (profiles b) = [Sample.ana_row]) as Hrow
    by (vm_compute; reflexivity).
  assert (query_data (profile_query st) = val Sample.ana_row) as Hsame
    by (vm_compute; reflexivity).
  destruct (X16_refetch_and_unsaved_edits st b Sample.ana Sample.ana_row
              eq_refl eq_refl Hrow) as (_ & Hkeep & _).
  split_and!; [reflexivity | reflexivity | exact Hrow | exact Hsame |].
  rewrite (Hkeep Hsame). vm_compute. reflexivity.
Defined.



(** X18. The photo dialog closes only on success. When its save button
    is pressed and the mutation it starts throws (no user, outage, refused
    update), the dialog stays open, no notification is emitted and only
    the mutation's error state records the failure; when the mutation
    returns, the dialog is closed and "Perfil atualizado" is emitted. *)
Theorem X18_photo_dialog_closes_only_on_success :
  ∀ (st : State) (b : Backend),
    isPhotoDialogOpen st = true →
    in_flight st = [] →
    let values := object [("avatar_url", form_getValue "avatar_url" st);
                          ("cover_url", form_getValue "cover_url" st)] in
    let w := run (st, b) [ClickSalvarAlteracoes; MutationSettles] in
    (∀ x, (mutationFn values b).1 = Thrown x →
          isPhotoDialogOpen w.1 = true
          ∧ toasts w.1 = toasts st
          ∧ mutation_error w.1 = Some x
          ∧ profiles w.2 = profiles b)
    ∧ ((mutationFn values b).1 = Returned true →
         isPhotoDialogOpen w.1 = false
         ∧ toasts w.1 = toasts st ++ [toast_updated]
         ∧ mutation_error w.1 = None).
Proof.
  intros st b Hopen Hq values w.
  assert (w = mutation_settles values (set_in_flight [] (handleSavePhotos st)) b) as Hw.
  { subst w. unfold run. simpl.
    assert (step (st, b) ClickSalvarAlteracoes = (handleSavePhotos st, b)) as ->
      by (unfold step; simpl; by rewrite Hopen).
    unfold step. simpl. by rewrite Hq. }
  rewrite Hw. split.
  - intros x Hx. rewrite (mutation_settles_thrown _ _ _ x Hx), mutation_settles_backend.
    simpl. split_and!; try done. eauto using mutationFn_thrown_keeps_rows.
  - intros Hok. by rewrite (mutation_settles_returned _ _ _ true Hok).
Qed.

Lemma X18_photo_dialog_closes_only_on_success_witness :
  let b := Sample.backend (Some Sample.ana) Sample.offline in
  let st := (run (mount, b) [ClickEditarFoto; TypeAvatarLink "https://img.example/x.png"]).1 in
  let w := run (st, b) [ClickSalvarAlteracoes; MutationSettles] in
  isPhotoDialogOpen st = true
  ∧ in_flight st = []
  ∧ isPhotoDialogOpen w.1 = true
  ∧ toasts w.1 = []
  ∧ mutation_error w.1 = Some (Postgrest Sample.outage).
Proof.
  intros b st w.
  assert (isPhotoDialogOpen st = true) as Hopen by (vm_compute; reflexivity).
  assert (in_flight st = []) as Hidle by (vm_compute; reflexivity).
  destruct (X18_photo_dialog_closes_only_on_success st b Hopen Hidle) as [Hfail _].
  destruct (Hfail (Postgrest Sample.outage)) as (Hstill & Htoasts & Herr & _);
    [vm_compute; reflexivity |].
  split_and!; [exact Hopen | exact Hidle | exact Hstill | exact Htoasts | exact Herr].
Defined.

Lemma update_rows_empty col v rows : update_rows ∅ col v rows = rows.
Proof.
  unfold update_rows, patch. rewrite <- (list_fmap_id rows) at 2.
  apply list_fmap_ext. intros i r _. simpl.
  destruct (decide _); [apply (left_id_L ∅ (∪)) | done].
Qed.

(** X20. Saving the photo dialog while the form holds neither link (the
    profile has not loaded and nothing was typed) sends an update with an
    empty payload: for a signed-in user and a store that is up, the
    request is accepted, no row changes, and "Perfil atualizado" is
    emitted all the same. *)
Theorem X20_empty_photo_save :
  ∀ (st : State) (b : Backend) (u : User),
    isPhotoDialogOpen st = true →
    in_flight st = [] →
    form st !! "avatar_url" = None →
    form st !! "cover_url" = None →
    auth_user b = Some u →
    fault b UPDATE "profiles" = None →
    let w := run (st, b) [ClickSalvarAlteracoes; MutationSettles] in
    received w.2 = received b ++ [update_request ∅ u]
    ∧ profiles w.2 = profiles b
    ∧ toasts w.1 = toasts st ++ [toast_updated]
    ∧ isPhotoDialogOpen w.1 = false.
Proof.
  intros st b u Hopen Hq Havatar Hcover Hu Hupd w.
  assert (handleSavePhotos st = mutate ∅ st) as Hsave.
  { unfold handleSavePhotos, form_getValue, get_opt. by rewrite Havatar, Hcover. }
  assert (mutationFn ∅ b
          = (Returned true, with_profiles (profiles b) (receive (update_request ∅ u) b)))
    as Hrun.
  { rewrite (mutationFn_accepted ∅ b u Hu), update_rows_empty; [done |].
    apply update_accepts; [done | by rewrite lookup_empty]. }
  assert (w = mutation_settles ∅ (set_in_flight [] (mutate ∅ st)) b) as ->.
  { subst w. unfold run. simpl.
    assert (step (st, b) ClickSalvarAlteracoes = (mutate ∅ st, b)) as ->
      by (unfold step; simpl; by rewrite Hopen, Hsave).
    unfold step. simpl. by rewrite Hq. }
  rewrite mutation_settles_backend, (mutation_settles_returned ∅ _ b true), Hrun;
    [| by rewrite Hrun].
  by split_and!.
Qed.

Lemma X20_empty_photo_save_witness :
  let b := Sample.backend (Some Sample.ana) Sample.online in
  let st := (run (mount, b) [ClickEditarFoto]).1 in
  let w := run (st, b) [ClickSalvarAlteracoes; MutationSettles] in
  isPhotoDialogOpen st = true
  ∧ in_flight st = []
  ∧ form st !! "avatar_url" = None
  ∧ form st !! "cover_url" = None
  ∧ profiles w.2 = profiles b
  ∧ toasts w.1 = [toast_updated].
Proof.
  intros b st w.
  destruct (X20_empty_photo_save st b Sample.ana eq_refl eq_refl eq_refl eq_refl
              eq_refl eq_refl) as (_ & Hrows & Htoasts & _).
  split_and!; [reflexivity | reflexivity | reflexivity | reflexivity
              | exact Hrows | exact Htoasts].
Defined.

End profile_runs.

Section profile_theme.
Import ProfileTheme.

(** X19. The page is drawn light only when the theme is exactly "light".
    For any other value (dark, system, or none yet) the page, its header
    and its placeholders all take the dark classes, so a visitor whose
    preference is "system" gets the dark page whatever the system says;
    the three regions never disagree. *)
Theorem X19_theme_regions_agree :
  ∀ (theme : option string),
    (theme = Some "light" →
       page_class theme = "min-h-screen bg-white text-black"
       ∧ header_class theme
         = "fixed top-0 left-0 right-0 z-50 flex items-center justify-between p-4 bg-white/90 backdrop-blur"
       ∧ placeholder_class theme
         = "w-full h-full flex items-center justify-center bg-gray-100")
    ∧ (theme ≠ Some "light" →
         page_class theme = "min-h-screen bg-black text-white"
         ∧ header_class theme
           = "fixed top-0 left-0 right-0 z-50 flex items-center justify-between p-4 bg-black/90 backdrop-blur"
         ∧ placeholder_class theme
           = "w-full h-full flex items-center justify-center bg-gray-900").
Proof.
  intros theme. split.
  - intros ->. by split_and!.
  - intros Hdark.
    assert (is_light theme = false) as Hl.
    { destruct theme as [t|]; simpl; [| done].
      destruct (String.eqb_spec t "light"); [congruence | done]. }
    unfold page_class, header_class, placeholder_class. rewrite Hl. by split_and!.
Qed.

Lemma X19_theme_regions_agree_witness :
  Some "system" ≠ Some "light"
  ∧ page_class (Some "system") = "min-h-screen bg-black text-white"
  ∧ placeholder_class None
    = "w-full h-full flex items-center justify-center bg-gray-900".
Proof.
  assert (Some "system" ≠ Some "light") as Hsys by discriminate.
  assert ((None : option string) ≠ Some "light") as Hnone by discriminate.
  destruct (X19_theme_regions_agree (Some "system")) as [_ Hdark].
  destruct (Hdark Hsys) as (Hpage & _ & _).
  destruct (X19_theme_regions_agree None) as [_ Hdark'].
  destruct (Hdark' Hnone) as (_ & _ & Hph).
  split_and!; [exact Hsys | exact Hpage | exact Hph].
Defined.

End profile_theme.

